(** * eSignBase Node SDK: the authenticated request pipeline

    A shallow embedding of [index.js] (enums, [ESignBaseSDKError],
    [ESignBaseClient]) together with the properties of its constructor,
    of [connect], of the private [#request] helper and of the public
    resource methods.

    Conventions.
    - A JS string is a [string]; an optional string argument is an
      [option string], [None] standing for [undefined].
    - A JS object used as a headers map is a [gmap string string].
    - The values produced by [JSON.parse] (and [undefined]) are the
      inductive type [Value].
    - An [async] method is a function of the world (the client's private
      fields and the log of transport calls made so far) returning a
      completion, normal or abrupt, and the new world.
    - The transport [fetch] is a variable: it answers a call given the
      calls that preceded it. *)

From Stdlib Require Import ZArith String Ascii List Bool Lia.
From stdpp Require Import base option list strings gmap pretty.
Import ListNotations.

Set Warnings "-register-all".
Local Open Scope string_scope.
Local Open Scope Z_scope.
Local Open Scope list_scope.

(** ** JavaScript values *)

Module JS.

(** The values [JSON.parse] can return, plus [undefined] (what reading a
    missing property gives).  Numbers are integers, and are written in
    plain decimal: this is how JavaScript holds and prints the safe
    integers, those of magnitude at most 2^53 - 1; larger numbers and
    fractions are not represented.  An object is the list of its
    properties in insertion order. *)
Inductive Value : Type :=
| Undefined
| Null
| Boolean (b : bool)
| Number (n : Z)
| Str (s : string)
| Array (elements : list Value)
| Object (properties : list (string * Value)).

(** ToBoolean: [!!v]. *)
Definition truthy (v : Value) : bool :=
  match v with
  | Undefined | Null => false
  | Boolean b => b
  | Number n => negb (n =? 0)
  | Str s => negb (String.eqb s "")
  | Array _ | Object _ => true
  end.

(** [Array.prototype.join]. *)
Fixpoint join (sep : string) (l : list string) : string :=
  match l with
  | [] => ""
  | [x] => x
  | x :: rest => x +:+ sep +:+ join sep rest
  end.

(** ToString, as applied by a template literal [`${v}`]. *)
Fixpoint ToString (v : Value) : string :=
  match v with
  | Undefined => "undefined"
  | Null => "null"
  | Boolean true => "true"
  | Boolean false => "false"
  | Number n => pretty n
  | Str s => s
  | Array l =>
      join "," (List.map (fun e => match e with
                               | Undefined | Null => ""
                               | _ => ToString e
                               end) l)
  | Object _ => "[object Object]"
  end.

(** Own-property lookup in a property list. *)
Fixpoint lookup_property (k : string) (ps : list (string * Value)) : option Value :=
  match ps with
  | [] => None
  | (k', v) :: rest => if String.eqb k k' then Some v else lookup_property k rest
  end.

(** [String.prototype.endsWith]. *)
Fixpoint endsWith (s suffix : string) : bool :=
  String.eqb s suffix
  || match s with
     | EmptyString => false
     | String _ s' => endsWith s' suffix
     end.

(** [s.replace(/^\//, '')]: drop one leading slash. *)
Definition strip_leading_slash (s : string) : string :=
  match s with
  | String "/"%char rest => rest
  | _ => s
  end.

(** [Array.prototype.includes] on an array of strings. *)
Definition includes (l : list string) (x : string) : bool :=
  existsb (String.eqb x) l.

(** Reading property [k] of [v] ([v.k]), for a [k] that is not a built-in
    property of strings or arrays: [null] and [undefined] have no
    properties, primitives and arrays answer [undefined]. *)
Definition get_property (v : Value) (k : string) : option Value :=
  match v with
  | Undefined | Null => None
  | Object ps => Some (default Undefined (lookup_property k ps))
  | _ => Some Undefined
  end.

(** The value [JSON.stringify] writes out for [v]: properties whose value
    is [undefined] are left out, [undefined] array elements become
    [null].  The body of a JSON request is kept as this tree, of which
    the text on the wire is the rendering. *)
Definition JSON_properties (tree : Value -> Value)
  : list (string * Value) -> list (string * Value) :=
  fix props ps :=
    match ps with
    | [] => []
    | (k, Undefined) :: rest => props rest
    | (k, x) :: rest => (k, tree x) :: props rest
    end.

Fixpoint JSON_tree (v : Value) : Value :=
  match v with
  | Array l =>
      Array (List.map (fun e => match e with
                            | Undefined => Null
                            | _ => JSON_tree e
                            end) l)
  | Object ps => Object (JSON_properties JSON_tree ps)
  | _ => v
  end.

(** *** [encodeURIComponent], on the UTF-8 bytes of the string *)

Definition hex_digit (n : N) : ascii :=
  default "0"%char (String.get (N.to_nat n) "0123456789ABCDEF").

Definition uri_unreserved (c : ascii) : bool :=
  let n := N_of_ascii c in
  ((65 <=? n) && (n <=? 90) || (97 <=? n) && (n <=? 122)
   || (48 <=? n) && (n <=? 57))%N
  || existsb (Ascii.eqb c) (list_ascii_of_string "-_.!~*'()").

Fixpoint encodeURIComponent (s : string) : string :=
  match s with
  | EmptyString => EmptyString
  | String c rest =>
      if uri_unreserved c then String c (encodeURIComponent rest)
      else
        let n := N_of_ascii c in
        String "%" (String (hex_digit (n / 16)%N)
                      (String (hex_digit (n mod 16)%N)
                         (encodeURIComponent rest)))
  end.

(** *** [Buffer.from(s).toString('base64')] *)

Definition b64_digit (i : N) : ascii :=
  default "="%char
    (String.get (N.to_nat i)
       "ABCDEFGHIJKLMNOPQRSTUVWXYZabcdefghijklmnopqrstuvwxyz0123456789+/").

Fixpoint base64 (s : string) : string :=
  match s with
  | EmptyString => EmptyString
  | String a EmptyString =>
      let x := N_of_ascii a in
      String (b64_digit (x / 4)%N)
        (String (b64_digit ((x mod 4) * 16)%N) "==")
  | String a (String b EmptyString) =>
      let x := N_of_ascii a in
      let y := N_of_ascii b in
      String (b64_digit (x / 4)%N)
        (String (b64_digit ((x mod 4) * 16 + y / 16)%N)
           (String (b64_digit ((y mod 16) * 4)%N) "="))
  | String a (String b (String c rest)) =>
      let x := N_of_ascii a in
      let y := N_of_ascii b in
      let z := N_of_ascii c in
      String (b64_digit (x / 4)%N)
        (String (b64_digit ((x mod 4) * 16 + y / 16)%N)
           (String (b64_digit ((y mod 16) * 4 + z / 64)%N)
              (String (b64_digit (z mod 64)%N) (base64 rest))))
  end.

(** *** [Date.prototype.toISOString] *)

Fixpoint zeros (k : nat) : string :=
  match k with
  | O => EmptyString
  | S k' => String "0" (zeros k')
  end.

(** Decimal digits of [n >= 0], left-padded with zeros to [width]. *)
Definition pad (width : nat) (n : Z) : string :=
  let d := pretty n in
  zeros (width - String.length d) +:+ d.

(** Year, month and day of the day number [days] (days since
    1970-01-01) in the proleptic Gregorian calendar. *)
Definition civil_from_days (days : Z) : Z * Z * Z :=
  let z := days + 719468 in
  let era := z / 146097 in
  let doe := z - era * 146097 in
  let yoe := (doe - doe / 1460 + doe / 36524 - doe / 146096) / 365 in
  let doy := doe - (365 * yoe + yoe / 4 - yoe / 100) in
  let mp := (5 * doy + 2) / 153 in
  let d := doy - (153 * mp + 2) / 5 + 1 in
  let m := if mp <? 10 then mp + 3 else mp - 9 in
  let y := yoe + era * 400 + (if m <=? 2 then 1 else 0) in
  (y, m, d).

(** [toISOString] of a Date whose time value is [t] milliseconds since
    the epoch.  Years outside 0..9999 are written with a sign and six
    digits. *)
Definition toISOString (t : Z) : string :=
  let '(y, m, d) := civil_from_days (t / 86400000) in
  let ms := t mod 86400000 in
  let year := if (0 <=? y) && (y <=? 9999) then pad 4 y
              else (if y <? 0 then "-" else "+") +:+ pad 6 (Z.abs y) in
  year +:+ "-" +:+ pad 2 m +:+ "-" +:+ pad 2 d
  +:+ "T" +:+ pad 2 (ms / 3600000)
  +:+ ":" +:+ pad 2 (ms / 60000 mod 60)
  +:+ ":" +:+ pad 2 (ms / 1000 mod 60)
  +:+ "." +:+ pad 3 (ms mod 1000) +:+ "Z".

End JS.

Import JS.

(** ** Enums *)

Module GrantType.

Definition CLIENT_CREDENTIALS : string := "client_credentials".
Definition AUTHORIZATION_CODE : string := "authorization_code".

(** [Object.values(GrantType)] *)
Definition values : list string := [CLIENT_CREDENTIALS; AUTHORIZATION_CODE].

End GrantType.

Module Scope.

Definition ALL : string := "all".
Definition READ : string := "read".
Definition CREATE_DOCUMENT : string := "create_document".
Definition DELETE : string := "delete".
Definition SANDBOX : string := "sandbox".

(** [Object.values(Scope)] *)
Definition values : list string := [ALL; READ; CREATE_DOCUMENT; DELETE; SANDBOX].

End Scope.

(** ** Errors *)

(** What a [throw] (or a rejected promise) carries: the SDK's own
    [ESignBaseSDKError], whose [statusCode] defaults to [null], or an
    error raised by the runtime or the transport, which the SDK never
    wraps. *)
Inductive Error : Type :=
| ESignBaseSDKError (message : string) (statusCode : option Z)
| RuntimeError (name : string) (message : string).

Definition message (e : Error) : string :=
  match e with
  | ESignBaseSDKError m _ => m
  | RuntimeError _ m => m
  end.

Definition statusCode (e : Error) : option Z :=
  match e with
  | ESignBaseSDKError _ sc => sc
  | RuntimeError _ _ => None
  end.

Inductive Completion (A : Type) : Type :=
| Return (a : A)
| Throw (e : Error).
Arguments Return {A} a.
Arguments Throw {A} e.

(** ** The client and its constructor *)

(** The private fields of [ESignBaseClient]. [accessToken] starts as
    [null] and later holds whatever [data.access_token] was. *)
Record Client : Type := mkClient {
  baseURL : string;
  clientId : string;
  clientSecret : string;
  grantType : string;
  username : option string;
  password : option string;
  scope : list string;
  accessToken : Value;
}.

(** The constructor's argument, typed as its JSDoc says; [None] is a
    missing property. *)
Record Options : Type := mkOptions {
  opt_clientId : option string;
  opt_clientSecret : option string;
  opt_grantType : option string;
  opt_scope : option (list string);
  opt_username : option string;
  opt_password : option string;
  opt_baseURL : option string;
}.

Definition is_Some_b {A} (o : option A) : bool :=
  match o with Some _ => true | None => false end.

(** A string-typed argument is falsy when missing or empty. *)
Definition present (o : option string) : bool :=
  match o with
  | Some s => negb (String.eqb s "")
  | None => false
  end.

Definition MSG_CLIENT_ID := "Client ID is required".
Definition MSG_CLIENT_SECRET := "Client secret is required".
Definition MSG_GRANT_TYPE := "Grant type is required".
Definition MSG_SCOPE_EMPTY := "At least one scope must be provided".
Definition MSG_GRANT_INVALID := "Invalid grant type".
Definition MSG_SCOPE_INVALID := "Invalid scope value provided".
Definition MSG_USER_PASS :=
  "Username and password are required for authorization_code grant type".

Definition DEFAULT_BASE_URL := "https://app.esignbase.com/".

Definition validation_error {A} (m : string) : Completion A :=
  Throw (ESignBaseSDKError m None).

(** [baseURL.endsWith('/') ? baseURL : baseURL + '/'] *)
Definition normalize_baseURL (b : string) : string :=
  if endsWith b "/" then b else b +:+ "/".

(** [new ESignBaseClient({...})] *)
Definition constructor (o : Options) : Completion Client :=
  let scope := default [] (opt_scope o) in
  let grantType := default "" (opt_grantType o) in
  if negb (present (opt_clientId o)) then validation_error MSG_CLIENT_ID
  else if negb (present (opt_clientSecret o)) then
    validation_error MSG_CLIENT_SECRET
  else if negb (present (opt_grantType o)) then
    validation_error MSG_GRANT_TYPE
  else if negb (is_Some_b (opt_scope o)) || (length scope =? 0)%nat then
    validation_error MSG_SCOPE_EMPTY
  (* Validate grant type *)
  else if negb (includes GrantType.values grantType) then
    validation_error MSG_GRANT_INVALID
  (* Validate scopes *)
  else if negb (forallb (includes Scope.values) scope) then
    validation_error MSG_SCOPE_INVALID
  else if String.eqb grantType GrantType.AUTHORIZATION_CODE
          && (negb (present (opt_username o))
              || negb (present (opt_password o))) then
    validation_error MSG_USER_PASS
  else
    Return {| baseURL := normalize_baseURL
                           (default DEFAULT_BASE_URL (opt_baseURL o));
              clientId := default "" (opt_clientId o);
              clientSecret := default "" (opt_clientSecret o);
              grantType := grantType;
              username := opt_username o;
              password := opt_password o;
              scope := scope;
              accessToken := Null |}.

(** [get isConnected()] *)
Definition isConnected (c : Client) : bool := truthy (accessToken c).

(** ** The transport *)

(** What is handed to [fetch] as [body]: the text [JSON.stringify] made
    (kept as its tree) or a [URLSearchParams] object. *)
Inductive RequestBody : Type :=
| JsonText (tree : Value)
| URLSearchParams (params : list (string * string)).

(** One call [fetch(url, { method, headers, body, signal })]; [abort_after]
    is the delay in milliseconds after which the signal aborts. *)
Record FetchCall : Type := mkCall {
  url : string;
  method : string;
  headers : gmap string string;
  body : option RequestBody;
  abort_after : Z;
}.

(** The result of reading a response body ([text()], [json()]). *)
Inductive BodyRead (A : Type) : Type :=
| Read (a : A)
| ReadFails (name : string) (reason : string).
Arguments Read {A} a.
Arguments ReadFails {A} name reason.

(** A response of the transport. [payload] is what the stream
    [response.body] carries, and [None] when [response.body] is [null]:
    a response without a body, as the transport gives for the statuses
    204 and 205. *)
Record Response : Type := mkResponse {
  status : Z;
  text : BodyRead string;
  json : BodyRead Value;
  payload : option string;
}.

(** [response.ok]: the status is in the range 200 to 299. *)
Definition ok (r : Response) : bool := (200 <=? status r) && (status r <=? 299).

Inductive FetchOutcome : Type :=
| Resolved (r : Response)
| Rejected (name : string) (reason : string).

(** The transport answers a call knowing the calls made before it. *)
Definition Transport : Type := list FetchCall -> FetchCall -> FetchOutcome.

(** The Node stream [Readable.fromWeb] makes over a web stream. *)
Inductive Readable : Type :=
| Readable_fromWeb (payload : string).

Definition MSG_NOT_A_STREAM :=
  "The readableStream argument must be an instance of ReadableStream. Received null".

(** [Readable.fromWeb(response.body)]: a [null] body is refused with a
    TypeError. *)
Definition fromWeb (body : option string) : Completion Readable :=
  match body with
  | Some bytes => Return (Readable_fromWeb bytes)
  | None => Throw (RuntimeError "TypeError" MSG_NOT_A_STREAM)
  end.

(** ** Asynchronous computations *)

(** The world a method runs in: the client ([this]), the global [fetch]
    and the calls made through it so far, oldest first. *)
Record World : Type := mkWorld {
  this : Client;
  fetch : Transport;
  calls : list FetchCall;
}.

Definition Async (A : Type) : Type := World -> Completion A * World.

Definition ret {A} (a : A) : Async A := fun w => (Return a, w).

Definition throw {A} (e : Error) : Async A := fun w => (Throw e, w).

Definition bind {A B} (m : Async A) (k : A -> Async B) : Async B :=
  fun w =>
    match m w with
    | (Return a, w') => k a w'
    | (Throw e, w') => (Throw e, w')
    end.

(** A synchronous call inside an [async] method. *)
Definition completed {A} (c : Completion A) : Async A := fun w => (c, w).

Notation "'await' x <- m ; k" := (bind m (fun x => k))
  (at level 10, x name, m at level 100, k at level 200).

(** The world once call [c] has been made. *)
Definition logged (w : World) (c : FetchCall) : World :=
  {| this := this w; fetch := fetch w; calls := calls w ++ [c] |}.

(** [await fetch(url, init)] *)
Definition await_fetch (c : FetchCall) : Async Response :=
  fun w =>
    match fetch w (calls w) c with
    | Resolved r => (Return r, logged w c)
    | Rejected name reason => (Throw (RuntimeError name reason), logged w c)
    end.

(** [await response.json()] *)
Definition await_json (r : Response) : Async Value :=
  match json r with
  | Read v => ret v
  | ReadFails name reason => throw (RuntimeError name reason)
  end.

(** The client once its [#accessToken] field holds [t]. *)
Definition with_token (c : Client) (t : Value) : Client :=
  {| baseURL := baseURL c; clientId := clientId c;
     clientSecret := clientSecret c; grantType := grantType c;
     username := username c; password := password c;
     scope := scope c; accessToken := t |}.

(** [this.#accessToken = v] *)
Definition set_accessToken (v : Value) : Async unit :=
  fun w =>
    (Return tt,
     {| this := with_token (this w) v; fetch := fetch w; calls := calls w |}).

(** ** Private helpers *)

Definition MSG_UNKNOWN := "Unknown error".
Definition MSG_NOT_CONNECTED := "Client is not connected. Call connect() first.".

(** The message [#handleResponse] gives its error: the body text, or
    the fallback when reading it fails. *)
Definition error_message (response : Response) : string :=
  match text response with
  | Read t => t
  | ReadFails _ _ => MSG_UNKNOWN
  end.

(** [#handleResponse(response)] *)
Definition handleResponse (response : Response) : Async Response :=
  if negb (ok response) then
    throw (ESignBaseSDKError (error_message response) (Some (status response)))
  else ret response.

(** The [options] argument of [#request]. *)
Record RequestOptions : Type := mkRequestOptions {
  opt_timeout : option Z;
  opt_headers : option (gmap string string);
  opt_body : option RequestBody;
}.

Definition no_options : RequestOptions :=
  {| opt_timeout := None; opt_headers := None; opt_body := None |}.

(** [{ ...base, ...extra }]: the properties of [extra] are written after
    those of [base] and replace them. *)
Definition spread (base : gmap string string)
    (extra : option (gmap string string)) : gmap string string :=
  match extra with
  | Some h => h ∪ base
  | None => base
  end.

Definition bearer (token : Value) : string := "Bearer " +:+ ToString token.

(** [options.timeout || 15000] *)
Definition timeout_or_default (t : option Z) : Z :=
  match t with
  | Some n => if n =? 0 then 15000 else n
  | None => 15000
  end.

(** The arguments [executeFetch] hands to [fetch] when the stored token
    is [token]. *)
Definition dispatch_call (token : Value) (url method : string)
    (options : RequestOptions) : FetchCall :=
  {| url := url;
     method := method;
     headers := spread {[ "Authorization" := bearer token ]}
                       (opt_headers options);
     body := opt_body options;
     abort_after := timeout_or_default (opt_timeout options) |}.

(** The closure [executeFetch] of [#request]: the token is read when the
    closure runs. *)
Definition executeFetch (url method : string) (options : RequestOptions)
  : Async Response :=
  fun w => await_fetch (dispatch_call (accessToken (this w)) url method options) w.

(** The arguments [connect] hands to [fetch]. *)
Definition token_call (c : Client) : FetchCall :=
  let authString := base64 (clientId c +:+ ":" +:+ clientSecret c) in
  let body :=
    ([("grant_type", grantType c); ("scope", join " " (scope c))]
     ++ (if String.eqb (grantType c) GrantType.AUTHORIZATION_CODE
         then [("username", default "undefined" (username c));
               ("password", default "undefined" (password c))]
         else []))%list in
  {| url := baseURL c +:+ "oauth2/token";
     method := "POST";
     headers := {[ "Authorization" := "Basic " +:+ authString;
                   "Content-Type" := "application/x-www-form-urlencoded" ]};
     body := Some (URLSearchParams body);
     abort_after := 15000 |}.

(** [connect()] *)
Definition connect : Async unit :=
  fun w =>
    (await response <- await_fetch (token_call (this w)) ;
     await _ <- handleResponse response ;
     await data <- await_json response ;
     match get_property data "access_token" with
     | Some token => set_accessToken token
     | None => throw (RuntimeError "TypeError"
                        "Cannot read properties of null (reading 'access_token')")
     end) w.

(** [#request(method, path, options = {}, retry = true)] *)
Definition request (method path : string) (options : RequestOptions)
    (retry : bool) : Async Response :=
  fun w =>
    if negb (isConnected (this w)) then
      throw (ESignBaseSDKError MSG_NOT_CONNECTED None) w
    else
      let url := baseURL (this w) +:+ strip_leading_slash path in
      (await response <- executeFetch url method options ;
       (* Retry once on 401 *)
       if (status response =? 401) && retry then
         await _ <- connect ;
         await response <- executeFetch url method options ;
         handleResponse response
       else
         handleResponse response) w.

(** ** Public API *)

(** [getTemplates()] *)
Definition getTemplates : Async Value :=
  await response <- request "GET" "api/templates" no_options true ;
  await_json response.

(** [getTemplate(templateId)] *)
Definition getTemplate (templateId : string) : Async Value :=
  await response <-
    request "GET" ("api/template/" +:+ encodeURIComponent templateId)
      no_options true ;
  await_json response.

(** [getDocuments(limit = 20, offset = 0)], for [limit] and [offset]
    that are safe integers (see [Value]). *)
Definition getDocuments (limit offset : option Z) : Async Value :=
  let limit := default 20 limit in
  let offset := default 0 offset in
  await response <-
    request "GET"
      ("api/documents?limit=" +:+ encodeURIComponent (pretty limit)
       +:+ "&offset=" +:+ encodeURIComponent (pretty offset))
      no_options true ;
  await_json response.

(** [getDocument(documentId)] *)
Definition getDocument (documentId : string) : Async Value :=
  await response <-
    request "GET" ("api/document/" +:+ encodeURIComponent documentId)
      no_options true ;
  await_json response.

(** The [expirationDate] argument: a [Date] object, given by its time
    value in milliseconds, or any other value ([undefined] when the
    property is missing).  The Date objects are the valid ones; on an
    Invalid Date [toISOString] raises a RangeError, and that object is
    not part of this type. *)
Inductive DateArgument : Type :=
| NotADate (v : Value)
| DateObject (time : Z).

(** [expirationDate instanceof Date] *)
Definition instanceof_Date (a : DateArgument) : bool :=
  match a with
  | DateObject _ => true
  | NotADate _ => false
  end.

(** The argument of [createDocument], typed as the README documents it:
    [recipients] is an array of objects, each given by its properties. *)
Record DocumentInput : Type := mkDocumentInput {
  templateId : Value;
  documentName : Value;
  recipients : list (list (string * Value));
  userDefinedMetadata : Value;
  expirationDate : DateArgument;
}.

(** [r.k] for a recipient object [r]. *)
Definition field (r : list (string * Value)) (k : string) : Value :=
  default Undefined (lookup_property k r).

(** The object [requestData] that [createDocument] builds. *)
Definition requestData (i : DocumentInput) : list (string * Value) :=
  ([("name", documentName i);
    ("template_id", templateId i);
    ("recipients",
     Array (List.map (fun r => Object [("email", field r "email");
                                       ("first_name", field r "first_name");
                                       ("last_name", field r "last_name");
                                       ("role_name", field r "role_name");
                                       ("locale", field r "locale")])
              (recipients i)))]
   ++ (if truthy (userDefinedMetadata i)
       then [("user_defined_metadata", userDefinedMetadata i)]
       else [])
   ++ (match expirationDate i with
       | DateObject t => [("expiration_date", Str (toISOString t))]
       | NotADate _ => []
       end))%list.

(** [createDocument({...})] *)
Definition createDocument (i : DocumentInput) : Async Value :=
  await response <-
    request "POST" "api/document"
      {| opt_timeout := None;
         opt_headers := Some {[ "Content-Type" := "application/json" ]};
         opt_body := Some (JsonText (JSON_tree (Object (requestData i)))) |}
      true ;
  await_json response.

(** [downloadDocument(documentId)] *)
Definition downloadDocument (documentId : string) : Async Readable :=
  await response <-
    request "GET"
      ("api/document/" +:+ encodeURIComponent documentId +:+ "/download")
      no_options false ;
  completed (fromWeb (payload response)).

(** [deleteDocument(documentId)] *)
Definition deleteDocument (documentId : string) : Async bool :=
  await _ <-
    request "DELETE" ("api/document/" +:+ encodeURIComponent documentId)
      no_options true ;
  ret true.

(** [getCredits()] *)
Definition getCredits : Async Value :=
  await response <- request "GET" "api/credits" no_options true ;
  await_json response.

(** ** The authenticated operations, gathered *)

(** The eight public methods that go through [request], with their
    arguments, so that a property can be stated once for all of them. *)
Inductive Operation : Type :=
| GetTemplates
| GetTemplate (templateId : string)
| GetDocuments (limit offset : option Z)
| GetDocument (documentId : string)
| CreateDocument (input : DocumentInput)
| DownloadDocument (documentId : string)
| DeleteDocument (documentId : string)
| GetCredits.

(** What a method resolves to. *)
Inductive Outcome : Type :=
| Decoded (v : Value)
| Streamed (r : Readable)
| Deleted (b : bool).

Definition perform (op : Operation) : Async Outcome :=
  match op with
  | GetTemplates => await v <- getTemplates ; ret (Decoded v)
  | GetTemplate id => await v <- getTemplate id ; ret (Decoded v)
  | GetDocuments l o => await v <- getDocuments l o ; ret (Decoded v)
  | GetDocument id => await v <- getDocument id ; ret (Decoded v)
  | CreateDocument i => await v <- createDocument i ; ret (Decoded v)
  | DownloadDocument id => await r <- downloadDocument id ; ret (Streamed r)
  | DeleteDocument id => await b <- deleteDocument id ; ret (Deleted b)
  | GetCredits => await v <- getCredits ; ret (Decoded v)
  end.

(** The retry flag a method passes to [request]. *)
Definition retries (op : Operation) : bool :=
  match op with
  | DownloadDocument _ => false
  | _ => true
  end.

(** ** Vocabulary of the statements *)

(** [sub] occurs in [s]. *)
Fixpoint contains (sub s : string) : bool :=
  String.prefix sub s
  || match s with
     | EmptyString => false
     | String _ s' => contains sub s'
     end.

(** Number of ["/"] characters that end [s]. *)
Fixpoint trailing_slashes (s : string) : nat :=
  match s with
  | EmptyString => O
  | String c s' =>
      let n := trailing_slashes s' in
      if Ascii.eqb c "/" && (n =? String.length s')%nat then S n else n
  end.

(** The method, path and options a public method passes to [request]. *)
Definition request_of (op : Operation) : string * string * RequestOptions :=
  match op with
  | GetTemplates => ("GET", "api/templates", no_options)
  | GetTemplate id =>
      ("GET", "api/template/" +:+ encodeURIComponent id, no_options)
  | GetDocuments l o =>
      ("GET",
       "api/documents?limit=" +:+ encodeURIComponent (pretty (default 20 l))
       +:+ "&offset=" +:+ encodeURIComponent (pretty (default 0 o)),
       no_options)
  | GetDocument id =>
      ("GET", "api/document/" +:+ encodeURIComponent id, no_options)
  | CreateDocument i =>
      ("POST", "api/document",
       {| opt_timeout := None;
          opt_headers := Some {[ "Content-Type" := "application/json" ]};
          opt_body := Some (JsonText (JSON_tree (Object (requestData i)))) |})
  | DownloadDocument id =>
      ("GET", "api/document/" +:+ encodeURIComponent id +:+ "/download",
       no_options)
  | DeleteDocument id =>
      ("DELETE", "api/document/" +:+ encodeURIComponent id, no_options)
  | GetCredits => ("GET", "api/credits", no_options)
  end.

(** What a public method does with the response of [request]. *)
Definition decode (op : Operation) (response : Response) : Async Outcome :=
  match op with
  | DownloadDocument _ =>
      await stream <- completed (fromWeb (payload response)) ;
      ret (Streamed stream)
  | DeleteDocument _ => ret (Deleted true)
  | _ => await v <- await_json response ; ret (Decoded v)
  end.

(** The first call a public method makes in world [w]. *)
Definition first_call (w : World) (op : Operation) : FetchCall :=
  let '(method, path, options) := request_of op in
  dispatch_call (accessToken (this w))
    (baseURL (this w) +:+ strip_leading_slash path) method options.

(** The caller's own [Authorization] header, if any. *)
Definition caller_authorization (options : RequestOptions) : option string :=
  h ← opt_headers options; h !! "Authorization".

(** Key [k] of a JSON body. *)
Definition json_lookup (k : string) (tree : Value) : option Value :=
  match tree with
  | Object ps => lookup_property k ps
  | _ => None
  end.

(** The error of the guard. *)
Definition not_connected_error : Error :=
  ESignBaseSDKError MSG_NOT_CONNECTED None.

(** Each public method stops at the guard of [request], in the world it
    was called in. *)
Definition all_operations_rejected (w : World) : Prop :=
  getTemplates w = (Throw not_connected_error, w)
  /\ (forall id, getTemplate id w = (Throw not_connected_error, w))
  /\ (forall limit offset,
        getDocuments limit offset w = (Throw not_connected_error, w))
  /\ (forall id, getDocument id w = (Throw not_connected_error, w))
  /\ (forall input, createDocument input w = (Throw not_connected_error, w))
  /\ (forall id, downloadDocument id w = (Throw not_connected_error, w))
  /\ (forall id, deleteDocument id w = (Throw not_connected_error, w))
  /\ getCredits w = (Throw not_connected_error, w).

(** *** The validation rules *)

Inductive Rule : Type :=
| ClientIdPresent
| ClientSecretPresent
| GrantTypePresent
| ScopeNonEmpty
| GrantTypeMember
| ScopesMember
| CredentialsPresent.

Definition satisfies (o : Options) (r : Rule) : bool :=
  match r with
  | ClientIdPresent => present (opt_clientId o)
  | ClientSecretPresent => present (opt_clientSecret o)
  | GrantTypePresent => present (opt_grantType o)
  | ScopeNonEmpty =>
      match opt_scope o with
      | Some (_ :: _) => true
      | _ => false
      end
  | GrantTypeMember => includes GrantType.values (default "" (opt_grantType o))
  | ScopesMember => forallb (includes Scope.values) (default [] (opt_scope o))
  | CredentialsPresent =>
      negb (String.eqb (default "" (opt_grantType o)) GrantType.AUTHORIZATION_CODE)
      || present (opt_username o) && present (opt_password o)
  end.

Definition rule_message (r : Rule) : string :=
  match r with
  | ClientIdPresent => MSG_CLIENT_ID
  | ClientSecretPresent => MSG_CLIENT_SECRET
  | GrantTypePresent => MSG_GRANT_TYPE
  | ScopeNonEmpty => MSG_SCOPE_EMPTY
  | GrantTypeMember => MSG_GRANT_INVALID
  | ScopesMember => MSG_SCOPE_INVALID
  | CredentialsPresent => MSG_USER_PASS
  end.

(** The order in which the specification lists the rules: the grant type
    is checked for membership before the scope is looked at. *)
Definition specified_order : list Rule :=
  [ClientIdPresent; ClientSecretPresent; GrantTypePresent; GrantTypeMember;
   ScopeNonEmpty; ScopesMember; CredentialsPresent].

(** The order of the constructor: the four presence checks come first. *)
Definition constructor_order : list Rule :=
  [ClientIdPresent; ClientSecretPresent; GrantTypePresent; ScopeNonEmpty;
   GrantTypeMember; ScopesMember; CredentialsPresent].

Definition first_violated (order : list Rule) (o : Options) : option Rule :=
  List.find (fun r => negb (satisfies o r)) order.

(** ** Sample data *)

(** A transport that answers its n-th call with the n-th outcome of a
    script, and fails once the script is over. *)
Definition scripted (script : list FetchOutcome) : Transport :=
  fun history _ =>
    nth (length history) script (Rejected "TypeError" "fetch failed").

Definition json_response (st : Z) (v : Value) : Response :=
  {| status := st; text := ReadFails "TypeError" "not text";
     json := Read v; payload := None |}.

Definition text_response (st : Z) (t : string) : Response :=
  {| status := st; text := Read t;
     json := ReadFails "SyntaxError" "Unexpected token"; payload := Some t |}.

Definition sample_options : Options :=
  {| opt_clientId := Some "id"; opt_clientSecret := Some "secret";
     opt_grantType := Some GrantType.CLIENT_CREDENTIALS;
     opt_scope := Some [Scope.READ];
     opt_username := None; opt_password := None; opt_baseURL := None |}.

(** The client [new ESignBaseClient(sample_options)] builds. *)
Definition sample_client : Client :=
  {| baseURL := DEFAULT_BASE_URL; clientId := "id"; clientSecret := "secret";
     grantType := GrantType.CLIENT_CREDENTIALS;
     username := None; password := None; scope := [Scope.READ];
     accessToken := Null |}.

Definition world (c : Client) (script : list FetchOutcome) : World :=
  {| this := c; fetch := scripted script; calls := [] |}.

Definition sample_input : DocumentInput :=
  {| templateId := Str "tpl"; documentName := Str "Doc";
     recipients := [[("email", Str "a@a.com"); ("first_name", Str "A");
                     ("last_name", Str "B"); ("role_name", Str "r");
                     ("locale", Str "en")]];
     userDefinedMetadata := Undefined;
     expirationDate := DateObject 1577836800000 |}.

Definition with_baseURL (o : Options) (b : string) : Options :=
  {| opt_clientId := opt_clientId o; opt_clientSecret := opt_clientSecret o;
     opt_grantType := opt_grantType o; opt_scope := opt_scope o;
     opt_username := opt_username o; opt_password := opt_password o;
     opt_baseURL := Some b |}.

(** An unknown grant type together with an empty scope. *)
Definition example_client : Client :=
  {| baseURL := "https://api.example.com/"; clientId := "id";
     clientSecret := "secret"; grantType := GrantType.CLIENT_CREDENTIALS;
     username := None; password := None; scope := [Scope.READ];
     accessToken := Null |}.

Definition doubly_invalid_options : Options :=
  {| opt_clientId := Some "i"; opt_clientSecret := Some "s";
     opt_grantType := Some "bad"; opt_scope := Some [];
     opt_username := None; opt_password := None; opt_baseURL := None |}.

(** A connected client whose token has expired: the first dispatch is
    answered 401, the token exchange gives a new token, the second
    dispatch succeeds. *)
Definition retry_world : World :=
  world (with_token sample_client (Str "t1"))
    [Resolved (text_response 401 "Unauthorized");
     Resolved (json_response 200 (Object [("access_token", Str "t2")]));
     Resolved (json_response 200 (Object [("templates", Array [])]))].

(** The same, but the second dispatch is answered 401 as well. *)
Definition twice_unauthorized_world : World :=
  world (with_token sample_client (Str "t1"))
    [Resolved (text_response 401 "Unauthorized");
     Resolved (json_response 200 (Object [("access_token", Str "t2")]));
     Resolved (text_response 401 "Still unauthorized")].

(** A client that has never connected, facing a token endpoint that
    answers 400. *)
Definition rejected_exchange_world : World :=
  world sample_client [Resolved (text_response 400 "Bad request")].

(** The token endpoint answers 200 with a body that has no
    [access_token]. *)
Definition tokenless_exchange_world : World :=
  world (with_token sample_client (Str "t1"))
    [Resolved (json_response 200 (Object [("token_type", Str "bearer")]))].

(** A connected client whose download is answered with a document. *)
Definition download_world : World :=
  world (with_token sample_client (Str "t1"))
    [Resolved {| status := 200; text := Read "%PDF-1.7";
                 json := ReadFails "SyntaxError" "Unexpected token";
                 payload := Some "%PDF-1.7" |}].

(** A connected client whose download is answered 204, without a
    body. *)
Definition bodyless_download_world : World :=
  world (with_token sample_client (Str "t1"))
    [Resolved {| status := 204; text := Read "";
                 json := ReadFails "SyntaxError" "Unexpected end of JSON input";
                 payload := None |}].

(** Options whose headers carry an [Authorization] entry of the caller. *)
Definition overriding_options : RequestOptions :=
  {| opt_timeout := None;
     opt_headers := Some {[ "Authorization" := "Basic intruder" ]};
     opt_body := None |}.

(** ** Vocabulary of the further properties *)

(** The grant configuration a client must hold: credentials present, a
    grant type and scopes of the enums, the user's credentials when the
    grant type asks for them, a baseURL that ends with a slash. *)
Definition valid_config (c : Client) : bool :=
  negb (String.eqb (clientId c) "")
  && negb (String.eqb (clientSecret c) "")
  && includes GrantType.values (grantType c)
  && negb (length (scope c) =? 0)%nat
  && forallb (includes Scope.values) (scope c)
  && (negb (String.eqb (grantType c) GrantType.AUTHORIZATION_CODE)
      || present (username c) && present (password c))
  && endsWith (baseURL c) "/".

(** Options of the user-credential grant. *)
Definition authorization_code_options : Options :=
  {| opt_clientId := Some "id"; opt_clientSecret := Some "secret";
     opt_grantType := Some GrantType.AUTHORIZATION_CODE;
     opt_scope := Some [Scope.READ; Scope.CREATE_DOCUMENT];
     opt_username := Some "alice"; opt_password := Some "pw";
     opt_baseURL := None |}.

(** The client [new ESignBaseClient(authorization_code_options)] builds. *)
Definition authorization_code_client : Client :=
  {| baseURL := DEFAULT_BASE_URL; clientId := "id"; clientSecret := "secret";
     grantType := GrantType.AUTHORIZATION_CODE;
     username := Some "alice"; password := Some "pw";
     scope := [Scope.READ; Scope.CREATE_DOCUMENT];
     accessToken := Null |}.

(** A status outside the success range 200..299. *)
Definition failure_status (st : Z) : Prop := st < 200 \/ 299 < st.

(** A connected client whose request is answered 500. *)
Definition server_error_world : World :=
  world (with_token sample_client (Str "t1"))
    [Resolved (text_response 500 "Internal error")].

(** A connected client whose transport fails (timeout, network). *)
Definition unreachable_world : World :=
  world (with_token sample_client (Str "t1"))
    [Rejected "AbortError" "This operation was aborted"].

(** The calls a computation has added to the log. *)
Definition new_calls (before after : World) : list FetchCall :=
  drop (length (calls before)) (calls after).

(** A client of the user-credential grant that has never connected,
    facing a token endpoint that issues a token. *)
Definition first_connect_world : World :=
  world authorization_code_client
    [Resolved (json_response 200 (Object [("access_token", Str "abc123")]));
     Resolved (json_response 200 (Object [("credits", Number 7)]))].

(** [Number.MAX_SAFE_INTEGER], 2^53 - 1. *)
Definition MAX_SAFE_INTEGER : Z := 9007199254740991.

(** [Number.isSafeInteger(n)], for an integer [n]. *)
Definition safe_integer (n : Z) : bool := Z.abs n <=? MAX_SAFE_INTEGER.

(** The characters [encodeURIComponent] can write: the unreserved ones
    and the percent sign. *)
Definition uri_safe (c : ascii) : bool :=
  uri_unreserved c || Ascii.eqb c "%".

(** The characters that structure a URL. *)
Definition uri_separators : list ascii :=
  list_ascii_of_string "/?#&=+: ".

(** The value of the hexadecimal digit [c]. *)
Definition hex_value (c : ascii) : N :=
  let n := N_of_ascii c in
  (if n <? 65 then n - 48 else n - 55)%N.

(** The properties [createDocument] copies from a recipient. *)
Definition recipient_fields : list string :=
  ["email"; "first_name"; "last_name"; "role_name"; "locale"].

(** What [JSON.stringify] writes for a property whose value is [v]:
    nothing when [v] is [undefined]. *)
Definition written (v : Value) : option Value :=
  match v with
  | Undefined => None
  | _ => Some (JSON_tree v)
  end.

(** A connected client whose request is answered 204 with a body that
    is not JSON. *)
Definition no_content_world : World :=
  world (with_token sample_client (Str "t1"))
    [Resolved {| status := 204; text := Read "";
                 json := ReadFails "SyntaxError" "Unexpected end of JSON input";
                 payload := None |}].

(** A document whose recipient has a property the API does not know and
    lacks a locale, with metadata. *)
Definition annotated_input : DocumentInput :=
  {| templateId := Str "tpl"; documentName := Str "Doc";
     recipients := [[("email", Str "a@a.com"); ("first_name", Str "A");
                     ("last_name", Str "B"); ("role_name", Str "r");
                     ("phone", Str "555")]];
     userDefinedMetadata := Object [("contract_id", Str "CTR-1")];
     expirationDate := NotADate Undefined |}.

(** * Properties *)

(** ** The runtime functions, on known values *)

Example base64_id_secret : base64 "id:secret" = "aWQ6c2VjcmV0".
Proof. reflexivity. Qed.

Example base64_padding : base64 "ab" = "YWI=" /\ base64 "a" = "YQ==".
Proof. split; reflexivity. Qed.

Example toISOString_2020 :
  toISOString 1577836800000 = "2020-01-01T00:00:00.000Z".
Proof. vm_compute. reflexivity. Qed.

Example toISOString_millis :
  toISOString 1700000000123 = "2023-11-14T22:13:20.123Z".
Proof. vm_compute. reflexivity. Qed.

Example toISOString_before_epoch :
  toISOString (-1) = "1969-12-31T23:59:59.999Z".
Proof. vm_compute. reflexivity. Qed.

Example toISOString_leap_day :
  toISOString 951782400000 = "2000-02-29T00:00:00.000Z".
Proof. vm_compute. reflexivity. Qed.

Example encodeURIComponent_slash : encodeURIComponent "a/b c" = "a%2Fb%20c".
Proof. vm_compute. reflexivity. Qed.

Example ToString_array :
  ToString (Array [Number 1; Null; Str "x"; Array [Boolean true; Number (-2)]])
  = "1,,x,true,-2".
Proof. vm_compute. reflexivity. Qed.

(** ** The scenarios of the test suite *)

Example sample_constructed : constructor sample_options = Return sample_client.
Proof. reflexivity. Qed.

Example connect_stores_token :
  let w := snd (connect (world sample_client
                  [Resolved (json_response 200
                               (Object [("access_token", Str "abc123")]))])) in
  isConnected (this w) = true
  /\ List.map url (calls w) = ["https://app.esignbase.com/oauth2/token"]
  /\ List.map body (calls w)
     = [Some (URLSearchParams [("grant_type", "client_credentials");
                               ("scope", "read")])].
Proof. vm_compute. auto. Qed.

Example retry_scenario :
  fst (getTemplates retry_world) = Return (Object [("templates", Array [])])
  /\ List.map url (calls (snd (getTemplates retry_world)))
     = ["https://app.esignbase.com/api/templates";
        "https://app.esignbase.com/oauth2/token";
        "https://app.esignbase.com/api/templates"]
  /\ List.map (fun c => headers c !! "Authorization")
       (calls (snd (getTemplates retry_world)))
     = [Some "Bearer t1"; Some "Basic aWQ6c2VjcmV0"; Some "Bearer t2"].
Proof. vm_compute. auto. Qed.

Example getDocuments_query :
  List.map url
    (calls (snd (getDocuments (Some 10) (Some 5)
                   (world (with_token sample_client (Str "t")) []))))
  = ["https://app.esignbase.com/api/documents?limit=10&offset=5"].
Proof. vm_compute. reflexivity. Qed.

Example getTemplate_encodes_id :
  List.map url
    (calls (snd (getTemplate "a/b"
                   (world (with_token sample_client (Str "t")) []))))
  = ["https://app.esignbase.com/api/template/a%2Fb"].
Proof. vm_compute. reflexivity. Qed.

Example deleteDocument_returns_true :
  let w := world (with_token sample_client (Str "t"))
             [Resolved (json_response 204 (Object []))] in
  fst (deleteDocument "doc1" w) = Return true
  /\ List.map method (calls (snd (deleteDocument "doc1" w))) = ["DELETE"].
Proof. vm_compute. auto. Qed.

Example createDocument_headers :
  let w := world (with_token sample_client (Str "token"))
             [Resolved (json_response 200 (Object [("id", Str "doc1")]))] in
  List.map (fun c => (headers c !! "Authorization", headers c !! "Content-Type"))
    (calls (snd (createDocument sample_input w)))
  = [(Some "Bearer token", Some "application/json")].
Proof. vm_compute. reflexivity. Qed.

(** ** The constructor *)

Section Constructor.

Lemma length_append (s t : string) :
  String.length (s +:+ t) = (String.length s + String.length t)%nat.
Proof.
  induction s as [|c s IH]; [reflexivity|].
  change (String c s +:+ t) with (String c (s +:+ t)).
  cbn [String.length Nat.add]. now rewrite IH.
Qed.

Lemma trailing_slashes_snoc (s : string) :
  trailing_slashes (s +:+ "/") = S (trailing_slashes s).
Proof.
  induction s as [|c s IH]; [reflexivity|].
  change (String c s +:+ "/") with (String c (s +:+ "/")).
  cbn [trailing_slashes]. rewrite IH, length_append. cbn [String.length].
  replace (S (trailing_slashes s) =? String.length s + 1)%nat
    with (trailing_slashes s =? String.length s)%nat.
  - destruct (Ascii.eqb c "/" && (trailing_slashes s =? String.length s)%nat);
      reflexivity.
  - destruct (Nat.eqb_spec (trailing_slashes s) (String.length s));
      symmetry; [apply Nat.eqb_eq | apply Nat.eqb_neq]; lia.
Qed.

Lemma endsWith_slash (s : string) :
  endsWith s "/" = true <-> (0 < trailing_slashes s)%nat.
Proof.
  induction s as [|c s IH]; cbn [endsWith trailing_slashes].
  - cbn. split; [discriminate | lia].
  - destruct s as [|c' s'].
    + cbn. destruct (Ascii.eqb c "/"); cbn; split; (lia || discriminate || auto).
    + assert (E : String.eqb (String c (String c' s')) "/" = false).
      { cbn. destruct (Ascii.eqb c "/"); reflexivity. }
      rewrite E, orb_false_l, IH.
      set (n := trailing_slashes (String c' s')).
      destruct (Ascii.eqb c "/" && (n =? String.length (String c' s'))%nat) eqn:T;
        [|tauto].
      apply andb_true_iff in T as [_ T%Nat.eqb_eq].
      cbn [String.length] in T. lia.
Qed.

Lemma constructor_baseURL (o : Options) (c : Client) :
  constructor o = Return c ->
  baseURL c = normalize_baseURL (default DEFAULT_BASE_URL (opt_baseURL o)).
Proof.
  unfold constructor, validation_error.
  repeat match goal with
         | |- context [if ?b then _ else _] => destruct b
         end; try discriminate.
  intros [= <-]. reflexivity.
Qed.

End Constructor.

Section Validation.

#[local] Arguments includes : simpl never.
#[local] Arguments present : simpl never.

(** C2 (as amended).  The constructor fails with the message of the first
    violated rule in the order: clientId present, clientSecret present,
    grantType present, scope present and non-empty, grantType a member of
    the enum, every scope a member of the enum, username and password
    present for AUTHORIZATION_CODE; when no rule is violated it builds a
    client. *)
Theorem constructor_reports_first_violation (o : Options) :
  match first_violated constructor_order o with
  | Some r => constructor o = validation_error (rule_message r)
  | None => exists c, constructor o = Return c
  end.
Proof.
  destruct o as [cid sec gt sc u p b].
  unfold first_violated, constructor_order, constructor; cbn.
  destruct (present cid); cbn; [|reflexivity].
  destruct (present sec); cbn; [|reflexivity].
  destruct (present gt); cbn; [|reflexivity].
  destruct sc as [[|s0 sc]|]; cbn; try reflexivity.
  destruct (includes GrantType.values (default "" gt)); cbn; [|reflexivity].
  destruct (includes Scope.values s0 && forallb (includes Scope.values) sc);
    cbn; [|reflexivity].
  destruct (String.eqb (default "" gt) GrantType.AUTHORIZATION_CODE),
    (present u), (present p); cbn; try reflexivity; eauto.
Qed.

(** C2 (as stated) fails: with a grant type outside the enum and an empty
    scope, the rule the specified order reaches first is grant-type
    membership, yet the constructor reports the empty scope. *)
Lemma doubly_invalid_reports_scope :
  satisfies doubly_invalid_options GrantTypePresent = true
  /\ satisfies doubly_invalid_options GrantTypeMember = false
  /\ satisfies doubly_invalid_options ScopeNonEmpty = false
  /\ first_violated specified_order doubly_invalid_options = Some GrantTypeMember
  /\ constructor doubly_invalid_options = validation_error MSG_SCOPE_EMPTY
  /\ constructor doubly_invalid_options <> validation_error MSG_GRANT_INVALID.
Proof. repeat split; try reflexivity. discriminate. Qed.

(** C5 (as amended).  The stored baseURL ends with at least one slash:
    a baseURL that does not end with a slash gets exactly one appended,
    and a baseURL that ends with slashes is stored unchanged, with as
    many trailing slashes as it came with. *)
Theorem constructor_normalizes_baseURL (o : Options) (c : Client) :
  constructor o = Return c ->
  let b := default DEFAULT_BASE_URL (opt_baseURL o) in
  (endsWith b "/" = false ->
     baseURL c = b +:+ "/" /\ trailing_slashes (baseURL c) = 1%nat)
  /\ (endsWith b "/" = true -> baseURL c = b)
  /\ trailing_slashes (baseURL c) = Nat.max 1 (trailing_slashes b).
Proof.
  intros H b. apply constructor_baseURL in H. fold b in H.
  unfold normalize_baseURL in H.
  pose proof (endsWith_slash b) as E.
  destruct (endsWith b "/"); rewrite H.
  - repeat split; try discriminate.
    assert (0 < trailing_slashes b)%nat by (apply E; reflexivity). lia.
  - assert (trailing_slashes b = 0%nat) as Hz.
    { destruct (trailing_slashes b); [reflexivity|].
      assert (false = true) by (apply E; lia). discriminate. }
    rewrite trailing_slashes_snoc, Hz. repeat split; discriminate.
Qed.

Lemma constructor_normalizes_baseURL_witness :
  constructor (with_baseURL sample_options "https://api.example.com")
  = Return example_client
  /\ endsWith "https://api.example.com" "/" = false
  /\ baseURL example_client = "https://api.example.com/"
  /\ trailing_slashes (baseURL example_client) = 1%nat.
Proof.
  split; [reflexivity|]. split; [reflexivity|].
  apply (constructor_normalizes_baseURL
           (with_baseURL sample_options "https://api.example.com")
           example_client); reflexivity.
Defined.

(** C5 (as stated) fails: a baseURL given with two trailing slashes is
    stored with both. *)
Lemma double_slash_baseURL_kept :
  constructor (with_baseURL sample_options "https://api.example.com//")
  = Return (with_token
              {| baseURL := "https://api.example.com//"; clientId := "id";
                 clientSecret := "secret";
                 grantType := GrantType.CLIENT_CREDENTIALS;
                 username := None; password := None; scope := [Scope.READ];
                 accessToken := Null |} Null)
  /\ trailing_slashes "https://api.example.com//" = 2%nat
  /\ 2%nat <> 1%nat.
Proof. repeat split. discriminate. Qed.

End Validation.

(** ** Token exchange *)

Section Exchange.

Variable w : World.

(** What [connect] does, by the answer of the transport. *)
Lemma connect_unfold :
  connect w =
  match fetch w (calls w) (token_call (this w)) with
  | Rejected name reason =>
      (Throw (RuntimeError name reason), logged w (token_call (this w)))
  | Resolved r =>
      if ok r then
        match json r with
        | ReadFails name reason =>
            (Throw (RuntimeError name reason), logged w (token_call (this w)))
        | Read data =>
            match get_property data "access_token" with
            | Some token =>
                (Return tt,
                 {| this := with_token (this w) token; fetch := fetch w;
                    calls := calls w ++ [token_call (this w)] |})
            | None =>
                (Throw (RuntimeError "TypeError"
                          "Cannot read properties of null (reading 'access_token')"),
                 logged w (token_call (this w)))
            end
        end
      else
        (Throw (ESignBaseSDKError (error_message r) (Some (status r))),
         logged w (token_call (this w)))
  end.
Proof.
  unfold connect, bind, await_fetch, handleResponse, await_json.
  destruct (fetch w (calls w) (token_call (this w))) as [r|]; [|reflexivity].
  destruct (ok r); cbn; [|reflexivity].
  destruct (json r) as [data|]; cbn; [|reflexivity].
  destruct (get_property data "access_token"); reflexivity.
Qed.

(** [connect] makes exactly one call, to the token endpoint, and leaves
    the transport alone. *)
Lemma connect_calls :
  calls (snd (connect w)) = calls w ++ [token_call (this w)]
  /\ fetch (snd (connect w)) = fetch w.
Proof.
  rewrite connect_unfold.
  destruct (fetch w (calls w) (token_call (this w))) as [r|]; [|now split].
  destruct (ok r); [|now split].
  destruct (json r) as [data|]; [|now split].
  destruct (get_property data "access_token"); now split.
Qed.

(** [connect] changes no field of the client but the token. *)
Lemma connect_client :
  exists t, this (snd (connect w)) = with_token (this w) t.
Proof.
  assert (this w = with_token (this w) (accessToken (this w))) as Id
    by (destruct (this w); reflexivity).
  rewrite connect_unfold.
  destruct (fetch w (calls w) (token_call (this w))) as [r|];
    [|now exists (accessToken (this w))].
  destruct (ok r); [|now exists (accessToken (this w))].
  destruct (json r) as [data|]; [|now exists (accessToken (this w))].
  destruct (get_property data "access_token") as [t|];
    [now exists t | now exists (accessToken (this w))].
Qed.

(** A [connect] that fails leaves the client as it was. *)
Lemma failed_connect_keeps_client (e : Error) :
  fst (connect w) = Throw e -> this (snd (connect w)) = this w.
Proof.
  rewrite connect_unfold.
  destruct (fetch w (calls w) (token_call (this w))) as [r|]; [|reflexivity].
  destruct (ok r); [|reflexivity].
  destruct (json r) as [data|]; [|reflexivity].
  destruct (get_property data "access_token"); [discriminate | reflexivity].
Qed.

End Exchange.

(** ** The request pipeline *)

Section Pipeline.

Variable w : World.
Variables (verb path : string) (options : RequestOptions).

Let target : string := baseURL (this w) +:+ strip_leading_slash path.
Let first : FetchCall :=
  dispatch_call (accessToken (this w)) target verb options.
Let exchange : FetchCall := token_call (this w).

(** The guard: a client that is not connected makes no call. *)
Lemma request_not_connected (retry : bool) :
  isConnected (this w) = false ->
  request verb path options retry w
  = (Throw (ESignBaseSDKError MSG_NOT_CONNECTED None), w).
Proof. intros H. unfold request. now rewrite H. Qed.

Lemma handleResponse_unfold (r : Response) (v : World) :
  handleResponse r v
  = (if ok r then Return r
     else Throw (ESignBaseSDKError (error_message r) (Some (status r))), v).
Proof. unfold handleResponse. now destruct (ok r). Qed.

(** What [request] does on a connected client, dispatch by dispatch. *)
Lemma request_unfold (retry : bool) :
  isConnected (this w) = true ->
  request verb path options retry w =
  match fetch w (calls w) first with
  | Rejected name reason => (Throw (RuntimeError name reason), logged w first)
  | Resolved r1 =>
      if (status r1 =? 401) && retry then
        match connect (logged w first) with
        | (Throw e, w2) => (Throw e, w2)
        | (Return _, w2) =>
            let second :=
              dispatch_call (accessToken (this w2)) target verb options in
            match fetch w2 (calls w2) second with
            | Rejected name reason =>
                (Throw (RuntimeError name reason), logged w2 second)
            | Resolved r2 => handleResponse r2 (logged w2 second)
            end
        end
      else handleResponse r1 (logged w first)
  end.
Proof.
  intros H. unfold request. rewrite H. cbn [negb].
  unfold bind at 1. unfold executeFetch at 1, await_fetch at 1.
  fold target. fold first.
  destruct (fetch w (calls w) first) as [r1|]; [|reflexivity].
  destruct ((status r1 =? 401) && retry); [|reflexivity].
  unfold bind at 1.
  destruct (connect (logged w first)) as [[[]|e] w2]; [|reflexivity].
  unfold bind, executeFetch, await_fetch.
  destruct (fetch w2 (calls w2) _); reflexivity.
Qed.

(** On the retry path [connect] runs in the world that has logged the
    first dispatch: it calls the token endpoint next. *)
Lemma reconnect_calls :
  calls (snd (connect (logged w first))) = calls w ++ [first; exchange]
  /\ fetch (snd (connect (logged w first))) = fetch w.
Proof.
  destruct (connect_calls (logged w first)) as [C F].
  rewrite C, F. cbn. now rewrite <- app_assoc.
Qed.

(** The header [executeFetch] sends: the caller's own [Authorization]
    entry when there is one, the bearer token otherwise. *)
Lemma dispatch_authorization (token : Value) (u m : string) (o : RequestOptions) :
  headers (dispatch_call token u m o) !! "Authorization"
  = Some (match caller_authorization o with
          | Some v => v
          | None => bearer token
          end).
Proof.
  unfold dispatch_call, caller_authorization, spread; cbn.
  destruct (opt_headers o) as [h|]; cbn.
  - rewrite lookup_union.
    destruct (h !! "Authorization"); now rewrite lookup_singleton_eq.
  - now rewrite lookup_singleton_eq.
Qed.

(** The calls of one request: the dispatch, then at most one token
    exchange, then at most one more dispatch, which differs from the
    first by the token only. *)
Lemma request_calls (retry : bool) :
  isConnected (this w) = true ->
  let w' := snd (request verb path options retry w) in
  calls w' = calls w ++ [first]
  \/ calls w' = calls w ++ [first; exchange]
  \/ calls w' = calls w ++ [first; exchange;
                            dispatch_call (accessToken (this w'))
                              target verb options].
Proof.
  intros H. cbv zeta. rewrite (request_unfold retry H).
  destruct (fetch w (calls w) first) as [r1|]; [|now left].
  destruct ((status r1 =? 401) && retry);
    [|rewrite handleResponse_unfold; now left].
  destruct reconnect_calls as [C F].
  destruct (connect (logged w first)) as [[[]|e] w2]; cbn in C, F;
    [|right; now left].
  right; right. cbv zeta.
  destruct (fetch w2 (calls w2) _) as [r2|];
    [rewrite handleResponse_unfold|]; cbn; rewrite C, <- app_assoc; reflexivity.
Qed.

End Pipeline.

(** ** Bearer token injection *)

(** C1 (as amended).  Every dispatch of the pipeline sends, as its
    Authorization header, the caller's own Authorization entry when the
    caller-supplied headers have one, and [Bearer <stored accessToken>]
    otherwise; the stored token is read at the time of the dispatch. *)
Theorem request_authorization_header (w : World) (verb path : string)
    (options : RequestOptions) (retry : bool) :
  isConnected (this w) = true ->
  let w' := snd (request verb path options retry w) in
  let sent token := match caller_authorization options with
                    | Some v => v
                    | None => bearer token
                    end in
  exists first rest,
    calls w' = calls w ++ first :: rest
    /\ headers first !! "Authorization" = Some (sent (accessToken (this w)))
    /\ (rest = []
        \/ rest = [token_call (this w)]
        \/ exists second,
             rest = [token_call (this w); second]
             /\ headers second !! "Authorization"
                = Some (sent (accessToken (this w')))).
Proof.
  intros H w' sent.
  exists (dispatch_call (accessToken (this w))
            (baseURL (this w) +:+ strip_leading_slash path) verb options).
  destruct (request_calls w verb path options retry H) as [E|[E|E]];
    fold w' in E; eexists; (split; [exact E|]);
    (split; [apply dispatch_authorization|]); auto.
  right; right. eexists. split; [reflexivity|]. apply dispatch_authorization.
Qed.

Lemma request_authorization_header_witness :
  isConnected (this retry_world) = true
  /\ exists first rest,
       calls (snd (request "GET" "api/templates" no_options true retry_world))
       = calls retry_world ++ first :: rest
       /\ headers first !! "Authorization" = Some "Bearer t1".
Proof.
  split; [reflexivity|].
  destruct (request_authorization_header retry_world "GET" "api/templates"
              no_options true eq_refl) as (first & rest & E & A & _).
  exists first, rest. split; [exact E | exact A].
Defined.

(** C1 (as stated) fails: an Authorization entry among the caller's
    headers is the one that is sent. *)
Lemma caller_authorization_overrides :
  isConnected (this retry_world) = true
  /\ accessToken (this retry_world) = Str "t1"
  /\ List.map (fun c => headers c !! "Authorization")
       (calls (snd (request "GET" "api/templates" overriding_options false
                      retry_world)))
     = [Some "Basic intruder"]
  /\ Some "Basic intruder" <> Some (bearer (accessToken (this retry_world))).
Proof. vm_compute. repeat split. discriminate. Qed.

(** ** The public methods *)

Section Operations.

Variable w : World.
Variable op : Operation.

(** Every public method is one call of [request] followed by the
    decoding of its response. *)
Lemma perform_unfold :
  perform op w
  = (let '(verb, path, options) := request_of op in
     await response <- request verb path options (retries op) ;
     decode op response) w.
Proof.
  destruct op; cbn [perform request_of retries decode];
    unfold getTemplates, getTemplate, getDocuments, getDocument,
      createDocument, downloadDocument, deleteDocument, getCredits, bind;
    cbn [default];
    match goal with
    | |- context [request ?m ?p ?o ?r w] =>
        destruct (request m p o r w) as [[response|e] w']
    end; try reflexivity;
    unfold await_json, completed, ret, throw;
    unfold fromWeb; destruct (json response), (payload response);
    reflexivity.
Qed.

(** Decoding a response makes no call and leaves the client alone. *)
Lemma decode_world (response : Response) (v : World) :
  snd (decode op response v) = v.
Proof.
  destruct op; cbn [decode]; unfold bind, await_json, completed, ret, throw;
    try reflexivity;
    unfold fromWeb; destruct (json response), (payload response);
    reflexivity.
Qed.

(** No public method puts an [Authorization] header of its own. *)
Lemma operation_has_no_authorization :
  caller_authorization (request_of op).2 = None.
Proof. destruct op; reflexivity. Qed.

(** The guard, for the public methods: the world is left as it was, so
    no call is made. *)
Lemma perform_not_connected :
  isConnected (this w) = false ->
  perform op w = (Throw (ESignBaseSDKError MSG_NOT_CONNECTED None), w).
Proof.
  intros H. rewrite perform_unfold.
  destruct (request_of op) as [[verb path] options].
  unfold bind. now rewrite (request_not_connected w verb path options _ H).
Qed.

End Operations.

(** ** Not connected *)

Lemma not_connected_rejects_all (w : World) :
  isConnected (this w) = false -> all_operations_rejected w.
Proof.
  intros H. unfold all_operations_rejected.
  repeat split; intros;
    unfold getTemplates, getTemplate, getDocuments, getDocument,
      createDocument, downloadDocument, deleteDocument, getCredits, bind;
    cbv zeta; now rewrite request_not_connected.
Qed.

(** C4.  On a client whose stored token is absent or empty (or any other
    falsy value), getTemplates, getTemplate, getDocuments, getDocument,
    createDocument, downloadDocument, deleteDocument and getCredits all
    fail with the same error: its message contains "not connected", its
    statusCode is absent, and the world, with its log of transport
    calls, is left as it was. *)
Theorem operations_require_connection (w : World) :
  isConnected (this w) = false ->
  contains "not connected" (message not_connected_error) = true
  /\ statusCode not_connected_error = None
  /\ all_operations_rejected w.
Proof.
  intros H. split; [reflexivity|]. split; [reflexivity|].
  now apply not_connected_rejects_all.
Qed.

Lemma operations_require_connection_witness :
  isConnected sample_client = false
  /\ createDocument sample_input (world sample_client [])
     = (Throw not_connected_error, world sample_client [])
  /\ calls (snd (getTemplates (world sample_client []))) = [].
Proof.
  split; [reflexivity|].
  destruct (operations_require_connection (world sample_client []) eq_refl)
    as (_ & _ & T & _ & _ & _ & C & _).
  split; [apply C | now rewrite T].
Defined.

(** ** Reauthentication *)

(** C3.  One request makes at most one token exchange and at most two
    dispatches, whatever the transport answers.  When the first dispatch
    of a retryable request is answered 401, exactly one token exchange
    follows; if it fails its error is the result and nothing more is
    sent; if it succeeds, exactly one more dispatch follows, with the
    method, URL and body of the first; and if that one is answered 401
    too, the request fails with an ESignBaseSDKError of status 401 after
    these three calls. *)
Theorem reauthentication_at_most_once (w : World) (verb path : string)
    (options : RequestOptions) :
  isConnected (this w) = true ->
  let target := baseURL (this w) +:+ strip_leading_slash path in
  let first := dispatch_call (accessToken (this w)) target verb options in
  let exchange := token_call (this w) in
  (forall retry,
     let w' := snd (request verb path options retry w) in
     calls w' = calls w ++ [first]
     \/ calls w' = calls w ++ [first; exchange]
     \/ exists second,
          calls w' = calls w ++ [first; exchange; second]
          /\ url second = url first
          /\ method second = method first
          /\ body second = body first)
  /\ (forall r1,
        fetch w (calls w) first = Resolved r1 ->
        status r1 = 401 ->
        let reconnect := connect (logged w first) in
        let second :=
          dispatch_call (accessToken (this (snd reconnect))) target verb options in
        let result := request verb path options true w in
        calls (snd reconnect) = calls w ++ [first; exchange]
        /\ (forall e, fst reconnect = Throw e -> result = (Throw e, snd reconnect))
        /\ (fst reconnect = Return tt ->
            calls (snd result) = calls w ++ [first; exchange; second]
            /\ url second = url first
            /\ method second = method first
            /\ body second = body first
            /\ forall r2,
                 fetch w (calls w ++ [first; exchange]) second = Resolved r2 ->
                 status r2 = 401 ->
                 fst result
                 = Throw (ESignBaseSDKError (error_message r2) (Some 401)))).
Proof.
  intros H target first exchange. split.
  - intros retry w'.
    destruct (request_calls w verb path options retry H) as [E|[E|E]];
      fold target first exchange w' in E; auto.
    right; right. eexists. split; [exact E|]. repeat split.
  - intros r1 F1 S1 reconnect second result.
    destruct (reconnect_calls w verb path options) as [C F].
    fold target first exchange reconnect in C, F.
    split; [exact C|].
    unfold result. rewrite (request_unfold w verb path options true H).
    fold target first. rewrite F1, S1. cbn [Z.eqb Pos.eqb andb].
    fold reconnect. fold second.
    destruct reconnect as [[[]|e] w2]; cbn [fst snd] in *.
    + split; [discriminate|]. intros _.
      assert (calls (snd match fetch w2 (calls w2) second with
                         | Resolved r2 => handleResponse r2 (logged w2 second)
                         | Rejected name reason =>
                             (Throw (RuntimeError name reason), logged w2 second)
                         end) = calls w ++ [first; exchange; second]) as L.
      { destruct (fetch w2 (calls w2) second);
          [rewrite handleResponse_unfold|]; cbn; rewrite C, <- app_assoc;
          reflexivity. }
      split; [exact L|]. repeat split.
      intros r2 F2 S2. rewrite F, C. fold second. rewrite F2, handleResponse_unfold.
      unfold ok. rewrite S2. reflexivity.
    + split; [|discriminate]. now intros e' [= ->].
Qed.

Lemma reauthentication_at_most_once_witness :
  isConnected (this twice_unauthorized_world) = true
  /\ fst (request "GET" "api/templates" no_options true twice_unauthorized_world)
     = Throw (ESignBaseSDKError "Still unauthorized" (Some 401))
  /\ List.map url
       (calls (snd (request "GET" "api/templates" no_options true
                      twice_unauthorized_world)))
     = ["https://app.esignbase.com/api/templates";
        "https://app.esignbase.com/oauth2/token";
        "https://app.esignbase.com/api/templates"].
Proof.
  split; [reflexivity|].
  destruct (reauthentication_at_most_once twice_unauthorized_world
              "GET" "api/templates" no_options eq_refl) as [_ B].
  destruct (B (text_response 401 "Unauthorized") eq_refl eq_refl)
    as (_ & _ & S).
  destruct (S eq_refl) as (L & _ & _ & _ & T).
  split.
  - exact (T (text_response 401 "Still unauthorized") eq_refl eq_refl).
  - rewrite L. reflexivity.
Defined.

Section Retry.

Variable w : World.
Variables (verb path : string) (options : RequestOptions).
Variables (r1 rx : Response) (data token : Value).

Let target : string := baseURL (this w) +:+ strip_leading_slash path.
Let first : FetchCall :=
  dispatch_call (accessToken (this w)) target verb options.
Let exchange : FetchCall := token_call (this w).
Let second : FetchCall := dispatch_call token target verb options.

Hypothesis connected : isConnected (this w) = true.
Hypothesis first_unauthorized :
  fetch w (calls w) first = Resolved r1 /\ status r1 = 401.
Hypothesis exchange_succeeds :
  fetch w (calls w ++ [first]) exchange = Resolved rx
  /\ ok rx = true
  /\ json rx = Read data
  /\ get_property data "access_token" = Some token.

(** The retry path when the exchange succeeds: the token is stored, then
    read again by the second dispatch. *)
Lemma request_after_reconnect :
  let w' := snd (request verb path options true w) in
  calls w' = calls w ++ [first; exchange; second]
  /\ this w' = with_token (this w) token.
Proof.
  destruct first_unauthorized as [F1 S1].
  destruct exchange_succeeds as (Fx & Ox & Jx & Px).
  cbv zeta. rewrite (request_unfold w verb path options true connected).
  fold target first. rewrite F1, S1. cbn [Z.eqb Pos.eqb andb].
  rewrite connect_unfold. cbn [logged this fetch calls].
  fold exchange. rewrite Fx, Ox, Jx, Px. cbv zeta.
  cbn [this fetch calls with_token accessToken]. fold second.
  destruct (fetch w _ second); [rewrite handleResponse_unfold|];
    cbn; rewrite <- !app_assoc; split; reflexivity.
Qed.

End Retry.

(** C9.  When the first dispatch of a public method that retries is
    answered 401 and the token exchange succeeds with a token, the
    method makes exactly three calls: the first dispatch carries the
    bearer of the token stored before, the second dispatch the bearer of
    the token the exchange returned, which is also the token now
    stored. *)
Theorem retry_reads_new_token (w : World) (op : Operation)
    (r1 rx : Response) (data token : Value) :
  isConnected (this w) = true ->
  retries op = true ->
  let first := first_call w op in
  let exchange := token_call (this w) in
  fetch w (calls w) first = Resolved r1 ->
  status r1 = 401 ->
  fetch w (calls w ++ [first]) exchange = Resolved rx ->
  ok rx = true ->
  json rx = Read data ->
  get_property data "access_token" = Some token ->
  exists second,
    calls (snd (perform op w)) = calls w ++ [first; exchange; second]
    /\ headers first !! "Authorization" = Some (bearer (accessToken (this w)))
    /\ headers second !! "Authorization" = Some (bearer token)
    /\ accessToken (this (snd (perform op w))) = token.
Proof.
  intros H R first exchange F1 S1 Fx Ox Jx Px.
  pose proof (operation_has_no_authorization op) as NA.
  unfold first, first_call in *. rewrite perform_unfold. rewrite R.
  destruct (request_of op) as [[verb path] options]. cbn [snd] in NA.
  destruct (request_after_reconnect w verb path options r1 rx data token H
              (conj F1 S1) (conj Fx (conj Ox (conj Jx Px)))) as [C T].
  eexists. unfold bind.
  destruct (request verb path options true w) as [[response|e] w'];
    cbn [snd] in C, T; rewrite ?decode_world; cbn [snd];
    (split; [exact C|]); rewrite !dispatch_authorization, NA, T;
    repeat split.
Qed.

Lemma retry_reads_new_token_witness :
  isConnected (this retry_world) = true
  /\ exists second,
       calls (snd (perform GetTemplates retry_world))
       = calls retry_world
         ++ [first_call retry_world GetTemplates;
             token_call (this retry_world); second]
       /\ headers second !! "Authorization" = Some "Bearer t2".
Proof.
  split; [reflexivity|].
  destruct (retry_reads_new_token retry_world GetTemplates
              (text_response 401 "Unauthorized")
              (json_response 200 (Object [("access_token", Str "t2")]))
              (Object [("access_token", Str "t2")]) (Str "t2")
              eq_refl eq_refl eq_refl eq_refl eq_refl eq_refl eq_refl eq_refl)
    as (second & C & _ & A & _).
  exists second. split; [exact C | exact A].
Defined.

(** ** Download *)

(** C7 (as amended).  [downloadDocument] on a connected client makes
    exactly one call, whatever the answer, and leaves the stored token
    alone: a 401 makes it fail with that status, without token exchange
    and without a second dispatch; a success status makes it return the
    stream that wraps the raw body of the response when the response has
    a body, and fail with the TypeError of [Readable.fromWeb] when the
    body is null. *)
Theorem download_never_retries (w : World) (documentId : string) :
  isConnected (this w) = true ->
  let first := first_call w (DownloadDocument documentId) in
  let result := downloadDocument documentId w in
  calls (snd result) = calls w ++ [first]
  /\ this (snd result) = this w
  /\ forall r,
       fetch w (calls w) first = Resolved r ->
       (status r = 401 ->
        fst result = Throw (ESignBaseSDKError (error_message r) (Some 401)))
       /\ (ok r = true ->
           fst result
           = match payload r with
             | Some bytes => Return (Readable_fromWeb bytes)
             | None => Throw (RuntimeError "TypeError" MSG_NOT_A_STREAM)
             end).
Proof.
  intros H first result. unfold result, downloadDocument, bind.
  rewrite (request_unfold w _ _ no_options false H).
  subst first. unfold first_call. cbn [request_of].
  destruct (fetch w (calls w) _) as [r|].
  - rewrite andb_false_r, handleResponse_unfold.
    destruct (ok r) eqn:O; unfold completed, fromWeb.
    + destruct (payload r) eqn:P; cbn; (split; [reflexivity|]);
        (split; [reflexivity|]); intros r' [= <-]; (split; intros E);
        try (now rewrite P); unfold ok in O; rewrite E in O; discriminate.
    + cbn. split; [reflexivity|]. split; [reflexivity|].
      intros r' [= <-]. split; intros E;
        [now rewrite E | rewrite O in E; discriminate].
  - cbn. repeat split; discriminate.
Qed.

Lemma download_never_retries_witness :
  isConnected (this retry_world) = true
  /\ fst (downloadDocument "doc1" retry_world)
     = Throw (ESignBaseSDKError "Unauthorized" (Some 401))
  /\ List.map url (calls (snd (downloadDocument "doc1" retry_world)))
     = ["https://app.esignbase.com/api/document/doc1/download"].
Proof.
  split; [reflexivity|].
  destruct (download_never_retries retry_world "doc1" eq_refl) as (C & _ & R).
  split.
  - exact (proj1 (R (text_response 401 "Unauthorized") eq_refl) eq_refl).
  - rewrite C. reflexivity.
Defined.

(** C7 (as stated) fails: a success response without a body gives no
    stream; [downloadDocument] fails with a TypeError. *)
Lemma download_without_body_fails :
  isConnected (this bodyless_download_world) = true
  /\ (exists r,
        fetch bodyless_download_world (calls bodyless_download_world)
          (first_call bodyless_download_world (DownloadDocument "doc1"))
        = Resolved r
        /\ ok r = true /\ payload r = None)
  /\ fst (downloadDocument "doc1" bodyless_download_world)
     = Throw (RuntimeError "TypeError" MSG_NOT_A_STREAM)
  /\ forall stream,
       fst (downloadDocument "doc1" bodyless_download_world) <> Return stream.
Proof.
  split; [reflexivity|]. split; [eexists; repeat split|].
  split; [reflexivity|]. intros stream. discriminate.
Qed.

Example download_streams_body :
  fst (downloadDocument "doc1" download_world)
  = Return (Readable_fromWeb "%PDF-1.7").
Proof. reflexivity. Qed.

(** ** Failed exchange *)

(** C6.  When the token endpoint answers with a status outside 200..299,
    [connect] fails with an ESignBaseSDKError whose message is the text
    of the response body, or "Unknown error" when the text cannot be
    read, and whose statusCode is the status.  No failing [connect]
    touches the client: the stored token is as it was before. *)
Theorem connect_failure (w : World) :
  (forall r,
     fetch w (calls w) (token_call (this w)) = Resolved r ->
     ok r = false ->
     fst (connect w)
     = Throw (ESignBaseSDKError
                match text r with
                | Read t => t
                | ReadFails _ _ => "Unknown error"
                end
                (Some (status r)))
     /\ accessToken (this (snd (connect w))) = accessToken (this w))
  /\ (forall e,
        fst (connect w) = Throw e -> this (snd (connect w)) = this w).
Proof.
  split.
  - intros r F O. rewrite connect_unfold, F, O. now split.
  - apply failed_connect_keeps_client.
Qed.

Lemma connect_failure_witness :
  fst (connect rejected_exchange_world)
  = Throw (ESignBaseSDKError "Bad request" (Some 400))
  /\ this (snd (connect rejected_exchange_world)) = sample_client.
Proof.
  destruct (connect_failure rejected_exchange_world) as [A B].
  split.
  - exact (proj1 (A (text_response 400 "Bad request") eq_refl eq_refl)).
  - exact (B (ESignBaseSDKError "Bad request" (Some 400)) eq_refl).
Defined.

(** ** The body of createDocument *)

Lemma JSON_properties_skip (k k' : string) (v : Value)
    (rest : list (string * Value)) :
  k <> k' ->
  lookup_property k (JSON_properties JSON_tree ((k', v) :: rest))
  = lookup_property k (JSON_properties JSON_tree rest).
Proof.
  intros N. apply String.eqb_neq in N.
  destruct v; cbn [JSON_properties lookup_property]; now rewrite ?N.
Qed.

(** C8.  [createDocument] sends, as the body of its first call, the JSON
    text of [requestData]; that body has the key expiration_date exactly
    when [expirationDate] is a Date object, and the value under the key
    is then the ISO-8601 string [toISOString] gives for that date. *)
Theorem createDocument_expiration_date (i : DocumentInput) :
  let tree := JSON_tree (Object (requestData i)) in
  (forall w,
     isConnected (this w) = true ->
     exists rest,
       calls (snd (createDocument i w))
       = calls w ++ first_call w (CreateDocument i) :: rest
       /\ body (first_call w (CreateDocument i)) = Some (JsonText tree))
  /\ json_lookup "expiration_date" tree
     = match expirationDate i with
       | DateObject t => Some (Str (toISOString t))
       | NotADate _ => None
       end
  /\ (is_Some (json_lookup "expiration_date" tree)
      <-> instanceof_Date (expirationDate i) = true).
Proof.
  intros tree.
  assert (json_lookup "expiration_date" tree
          = match expirationDate i with
            | DateObject t => Some (Str (toISOString t))
            | NotADate _ => None
            end) as L.
  { unfold tree, requestData. cbn [JSON_tree json_lookup app].
    rewrite !JSON_properties_skip by discriminate.
    destruct (truthy (userDefinedMetadata i)); cbn [app];
      rewrite ?JSON_properties_skip by discriminate;
      destruct (expirationDate i); reflexivity. }
  split; [|split; [exact L|]].
  - intros w H.
    destruct (request_calls w "POST" "api/document"
                (request_of (CreateDocument i)).2 true H) as [E|[E|E]];
      unfold createDocument, bind;
      cbn [request_of snd] in E;
      destruct (request _ _ _ _ w) as [[response|e] w']; cbn [snd] in E;
      unfold await_json, ret, throw; try destruct (json response);
      cbn [snd]; rewrite E; eexists; (split; [reflexivity|]); reflexivity.
  - rewrite L. destruct (expirationDate i); cbn; split;
      try discriminate; eauto.
    intros [? ?]. discriminate.
Qed.

Lemma createDocument_expiration_date_witness :
  isConnected (this retry_world) = true
  /\ json_lookup "expiration_date"
       (JSON_tree (Object (requestData sample_input)))
     = Some (Str "2020-01-01T00:00:00.000Z")
  /\ exists rest,
       calls (snd (createDocument sample_input retry_world))
       = calls retry_world
         ++ first_call retry_world (CreateDocument sample_input) :: rest.
Proof.
  split; [reflexivity|].
  destruct (createDocument_expiration_date sample_input) as (B & L & _).
  split; [exact L|].
  destruct (B retry_world eq_refl) as (rest & E & _).
  exists rest. exact E.
Defined.

(** ** An exchange that returns no token *)

(** C10.  When the token endpoint answers with a success status and a
    JSON body in which reading [access_token] gives nothing (the field
    is missing) or the empty string, [connect] completes normally, the
    stored token becomes that absent or empty value, [isConnected] is
    false, and every public method called afterwards stops at the guard
    with the not-connected error. *)
Theorem connect_without_token (w : World) (r : Response) (data : Value) :
  fetch w (calls w) (token_call (this w)) = Resolved r ->
  ok r = true ->
  json r = Read data ->
  get_property data "access_token" = Some Undefined
  \/ get_property data "access_token" = Some (Str "") ->
  let w' := snd (connect w) in
  fst (connect w) = Return tt
  /\ (accessToken (this w') = Undefined \/ accessToken (this w') = Str "")
  /\ isConnected (this w') = false
  /\ contains "not connected" (message not_connected_error) = true
  /\ all_operations_rejected w'.
Proof.
  intros F O J P w'. unfold w'. rewrite connect_unfold, F, O, J.
  assert (forall t, t = Undefined \/ t = Str "" -> isConnected
            (with_token (this w) t) = false) as D
    by (intros t [-> | ->]; reflexivity).
  destruct P as [P|P]; rewrite P; cbn [fst snd this];
    (split; [reflexivity|]); (split; [cbn; auto|]);
    (split; [apply D; auto|]); (split; [reflexivity|]);
    apply not_connected_rejects_all; cbn [this]; apply D; auto.
Qed.

Lemma connect_without_token_witness :
  fst (connect tokenless_exchange_world) = Return tt
  /\ accessToken (this tokenless_exchange_world) = Str "t1"
  /\ isConnected (this (snd (connect tokenless_exchange_world))) = false.
Proof.
  destruct (connect_without_token tokenless_exchange_world
              (json_response 200 (Object [("token_type", Str "bearer")]))
              (Object [("token_type", Str "bearer")])
              eq_refl eq_refl eq_refl (or_introl eq_refl))
    as (A & _ & B & _).
  split; [exact A|]. split; [reflexivity | exact B].
Defined.

(** A body that is the JSON [null] has no properties to read:
    [connect] fails with a TypeError and the token stays. *)
Remark connect_null_body (w : World) (r : Response) :
  fetch w (calls w) (token_call (this w)) = Resolved r ->
  ok r = true ->
  json r = Read Null ->
  exists m, fst (connect w) = Throw (RuntimeError "TypeError" m)
            /\ this (snd (connect w)) = this w.
Proof.
  intros F O J. rewrite connect_unfold, F, O, J. cbn. eauto.
Qed.

(** * Further properties *)

(** ** What the constructor accepts and stores *)

Section Construction.

#[local] Arguments includes : simpl never.
#[local] Arguments present : simpl never.
#[local] Arguments normalize_baseURL : simpl never.

Lemma present_Some (x : option string) :
  present x = true -> exists s, x = Some s /\ s <> "".
Proof.
  destruct x as [s|]; [|discriminate]. unfold present.
  intros H. exists s. split; [reflexivity|]. intros ->. discriminate.
Qed.

(** The constructor, read backwards: a client comes out only when the
    seven rules hold, and it is built from the options field by field. *)
Lemma constructor_inversion (o : Options) (c : Client) :
  constructor o = Return c ->
  forallb (satisfies o) constructor_order = true
  /\ c = {| baseURL := normalize_baseURL
                         (default DEFAULT_BASE_URL (opt_baseURL o));
            clientId := default "" (opt_clientId o);
            clientSecret := default "" (opt_clientSecret o);
            grantType := default "" (opt_grantType o);
            username := opt_username o;
            password := opt_password o;
            scope := default [] (opt_scope o);
            accessToken := Null |}.
Proof.
  destruct o as [cid sec gt sc u p b].
  unfold constructor, constructor_order, validation_error; cbn.
  destruct (present cid); cbn; [|discriminate].
  destruct (present sec); cbn; [|discriminate].
  destruct (present gt); cbn; [|discriminate].
  destruct sc as [[|s0 sc]|]; cbn; try discriminate.
  destruct (includes GrantType.values (default "" gt)); cbn; [|discriminate].
  destruct (includes Scope.values s0 && forallb (includes Scope.values) sc);
    cbn; [|discriminate].
  destruct (String.eqb (default "" gt) GrantType.AUTHORIZATION_CODE),
    (present u), (present p); cbn; try discriminate;
    intros [= <-]; split; reflexivity.
Qed.

Lemma endsWith_normalize (b : string) :
  endsWith (normalize_baseURL b) "/" = true.
Proof.
  unfold normalize_baseURL. destruct (endsWith b "/") eqn:E; [exact E|].
  apply endsWith_slash. rewrite trailing_slashes_snoc. lia.
Qed.

(** X1.  A client that the constructor returns holds exactly the
    credentials, grant type, scopes, username and password it was given,
    has no token and reports not connected. *)
Theorem constructor_stores_input (o : Options) (c : Client) :
  constructor o = Return c ->
  opt_clientId o = Some (clientId c)
  /\ opt_clientSecret o = Some (clientSecret c)
  /\ opt_grantType o = Some (grantType c)
  /\ opt_scope o = Some (scope c)
  /\ username c = opt_username o
  /\ password c = opt_password o
  /\ accessToken c = Null
  /\ isConnected c = false.
Proof.
  intros H. destruct (constructor_inversion o c H) as [V ->].
  cbn in V. repeat (apply andb_true_iff in V as [? V]).
  destruct o as [cid sec gt sc u p b]; cbn in *.
  repeat match goal with
         | H : present ?x = true |- _ =>
             apply present_Some in H as (? & -> & _)
         end.
  destruct sc as [[|s0 sc]|]; try discriminate.
  repeat split.
Qed.

Lemma constructor_stores_input_witness :
  constructor authorization_code_options = Return authorization_code_client
  /\ username authorization_code_client = Some "alice"
  /\ isConnected authorization_code_client = false.
Proof.
  split; [reflexivity|].
  destruct (constructor_stores_input authorization_code_options
              authorization_code_client eq_refl)
    as (_ & _ & _ & _ & U & _ & _ & C).
  split; [exact U | exact C].
Defined.

(** X2.  Every failure of the constructor is an ESignBaseSDKError without
    status code whose message is that of a rule the options violate. *)
Theorem constructor_error_sound (o : Options) (e : Error) :
  constructor o = Throw e ->
  exists r,
    satisfies o r = false
    /\ e = ESignBaseSDKError (rule_message r) None
    /\ statusCode e = None.
Proof.
  destruct o as [cid sec gt sc u p b].
  unfold constructor, validation_error; cbn.
  destruct (present cid) eqn:E1; cbn;
    [|intros [= <-]; exists ClientIdPresent; now cbn].
  destruct (present sec) eqn:E2; cbn;
    [|intros [= <-]; exists ClientSecretPresent; now cbn].
  destruct (present gt) eqn:E3; cbn;
    [|intros [= <-]; exists GrantTypePresent; now cbn].
  destruct sc as [[|s0 sc]|]; cbn;
    try (intros [= <-]; exists ScopeNonEmpty; now cbn).
  destruct (includes GrantType.values (default "" gt)) eqn:E4; cbn;
    [|intros [= <-]; exists GrantTypeMember; now cbn].
  destruct (includes Scope.values s0 && forallb (includes Scope.values) sc)
    eqn:E5; cbn; [|intros [= <-]; exists ScopesMember; now cbn].
  destruct (String.eqb (default "" gt) GrantType.AUTHORIZATION_CODE) eqn:E6,
    (present u) eqn:E7, (present p) eqn:E8; cbn; try discriminate;
    intros [= <-]; exists CredentialsPresent; cbn; now rewrite E6, E7, ?E8.
Qed.

Lemma constructor_error_sound_witness :
  constructor doubly_invalid_options = validation_error MSG_SCOPE_EMPTY
  /\ exists r,
       satisfies doubly_invalid_options r = false
       /\ ESignBaseSDKError MSG_SCOPE_EMPTY None
          = ESignBaseSDKError (rule_message r) None.
Proof.
  split; [reflexivity|].
  destruct (constructor_error_sound doubly_invalid_options
              (ESignBaseSDKError MSG_SCOPE_EMPTY None) eq_refl)
    as (r & S & E & _).
  exists r. split; [exact S | exact E].
Defined.

(** X3.  Every client the constructor returns holds a valid grant
    configuration: non-empty id and secret, a grant type of the enum, a
    non-empty list of scopes of the enum, username and password when the
    grant type is AUTHORIZATION_CODE, and a baseURL ending with a
    slash. *)
Theorem constructor_valid_config (o : Options) (c : Client) :
  constructor o = Return c -> valid_config c = true.
Proof.
  intros H. destruct (constructor_inversion o c H) as [V ->]. clear H.
  cbn in V.
  apply andb_true_iff in V as [V1 V]. apply andb_true_iff in V as [V2 V].
  apply andb_true_iff in V as [V3 V]. apply andb_true_iff in V as [V4 V].
  apply andb_true_iff in V as [V5 V]. apply andb_true_iff in V as [V6 V].
  apply andb_true_iff in V as [V7 _].
  destruct o as [cid sec gt sc u p b]; cbn in *.
  apply present_Some in V1 as (i & -> & N1%String.eqb_neq).
  apply present_Some in V2 as (s & -> & N2%String.eqb_neq).
  apply present_Some in V3 as (g & -> & _).
  destruct sc as [[|s0 sc]|]; try discriminate. cbn in *.
  unfold valid_config; cbn.
  now rewrite N1, N2, V5, V6, V7, endsWith_normalize.
Qed.

Lemma constructor_valid_config_witness :
  constructor authorization_code_options = Return authorization_code_client
  /\ valid_config authorization_code_client = true.
Proof.
  split; [reflexivity|].
  exact (constructor_valid_config authorization_code_options
           authorization_code_client eq_refl).
Defined.

End Construction.

(** ** The grant configuration is never mutated *)

Section Configuration.

Lemma with_token_twice (c : Client) (t t' : Value) :
  with_token (with_token c t) t' = with_token c t'.
Proof. reflexivity. Qed.

Lemma with_token_same (c : Client) : with_token c (accessToken c) = c.
Proof. now destruct c. Qed.

Lemma valid_config_with_token (c : Client) (t : Value) :
  valid_config (with_token c t) = valid_config c.
Proof. reflexivity. Qed.

(** [request] changes no field of the client but the token. *)
Lemma request_client (w : World) (verb path : string)
    (options : RequestOptions) (retry : bool) :
  exists t,
    this (snd (request verb path options retry w)) = with_token (this w) t.
Proof.
  destruct (isConnected (this w)) eqn:H.
  - rewrite (request_unfold w verb path options retry H).
    destruct (fetch w (calls w) _) as [r1|];
      [|exists (accessToken (this w)); now rewrite with_token_same].
    destruct ((status r1 =? 401) && retry);
      [|rewrite handleResponse_unfold; exists (accessToken (this w));
        now rewrite with_token_same].
    destruct (connect_client (logged w (dispatch_call (accessToken (this w))
                (baseURL (this w) +:+ strip_leading_slash path) verb options)))
      as [t T].
    destruct (connect _) as [[[]|e] w2]; cbn [snd logged this] in T;
      [|now exists t].
    cbv zeta. exists t.
    destruct (fetch w2 (calls w2) _); [rewrite handleResponse_unfold|];
      exact T.
  - rewrite (request_not_connected w verb path options retry H).
    exists (accessToken (this w)). now rewrite with_token_same.
Qed.

(** X4.  No public method and no [connect] changes the grant
    configuration: the client afterwards is the client before with, at
    most, another token, so a valid configuration stays valid. *)
Theorem operations_keep_config (w : World) (op : Operation) :
  (exists t, this (snd (perform op w)) = with_token (this w) t)
  /\ valid_config (this (snd (perform op w))) = valid_config (this w)
  /\ (exists t, this (snd (connect w)) = with_token (this w) t)
  /\ valid_config (this (snd (connect w))) = valid_config (this w).
Proof.
  assert (exists t, this (snd (perform op w)) = with_token (this w) t) as P.
  { rewrite perform_unfold.
    destruct (request_of op) as [[verb path] options].
    destruct (request_client w verb path options (retries op)) as [t T].
    exists t. unfold bind.
    destruct (request verb path options (retries op) w) as [[r|e] w'];
      [rewrite decode_world|]; exact T. }
  pose proof (connect_client w) as C.
  split; [exact P|]. split; [destruct P as [t ->]; reflexivity|].
  split; [exact C|]. destruct C as [t ->]. reflexivity.
Qed.

End Configuration.

(** ** What a request can result in *)

Section Results.

Lemma ok_false_failure (r : Response) : ok r = false -> failure_status (status r).
Proof.
  unfold ok, failure_status. intros H.
  apply andb_false_iff in H as [H|H]; apply Z.leb_gt in H; lia.
Qed.

(** The SDK errors of [connect] carry a failure status. *)
Lemma connect_error_status (w : World) (m : string) (s : option Z) :
  fst (connect w) = Throw (ESignBaseSDKError m s) ->
  exists st, s = Some st /\ failure_status st.
Proof.
  rewrite connect_unfold.
  destruct (fetch w (calls w) (token_call (this w))) as [r|]; [|discriminate].
  destruct (ok r) eqn:O.
  - destruct (json r) as [data|]; [|discriminate].
    destruct (get_property data "access_token"); discriminate.
  - intros [= <- <-]. exists (status r). split; [reflexivity|].
    now apply ok_false_failure.
Qed.

Lemma handleResponse_result (r : Response) (v : World) :
  (forall r', fst (handleResponse r v) = Return r' -> r' = r /\ ok r = true)
  /\ (forall e, fst (handleResponse r v) = Throw e ->
        e = ESignBaseSDKError (error_message r) (Some (status r))
        /\ failure_status (status r)).
Proof.
  rewrite handleResponse_unfold. destruct (ok r) eqn:O; cbn; split;
    intros ? [= <-]; auto using ok_false_failure.
Qed.

(** X5.  [request] resolves only with a response whose status is in
    200..299.  When it fails with an ESignBaseSDKError, either the client
    was not connected and the error has no status code, or the client
    was connected and the error carries a status outside 200..299. *)
Theorem request_result_classified (w : World) (verb path : string)
    (options : RequestOptions) (retry : bool) :
  (forall r, fst (request verb path options retry w) = Return r -> ok r = true)
  /\ (forall m s,
        fst (request verb path options retry w) = Throw (ESignBaseSDKError m s) ->
        (isConnected (this w) = false /\ m = MSG_NOT_CONNECTED /\ s = None)
        \/ (isConnected (this w) = true
            /\ exists st, s = Some st /\ failure_status st)).
Proof.
  destruct (isConnected (this w)) eqn:H.
  - rewrite (request_unfold w verb path options retry H).
    destruct (fetch w (calls w) _) as [r1|]; [|split; intros; discriminate].
    destruct ((status r1 =? 401) && retry).
    + pose proof (connect_error_status (logged w (dispatch_call
          (accessToken (this w))
          (baseURL (this w) +:+ strip_leading_slash path) verb options))) as CE.
      destruct (connect _) as [[[]|e] w2]; cbn [fst] in CE.
      * cbv zeta. destruct (fetch w2 (calls w2) _) as [r2|];
          [|split; intros; discriminate].
        destruct (handleResponse_result r2 (logged w2 (dispatch_call
            (accessToken (this w2))
            (baseURL (this w) +:+ strip_leading_slash path) verb options)))
          as [A B].
        split; [intros r E; now destruct (A r E) as [-> ?]|].
        intros m s E. right. split; [reflexivity|].
        destruct (B _ E) as [[= -> ->] F]. eauto.
      * split; [intros; discriminate|]. intros m s [= ->]. right. eauto.
    + destruct (handleResponse_result r1 (logged w (dispatch_call
          (accessToken (this w))
          (baseURL (this w) +:+ strip_leading_slash path) verb options)))
        as [A B].
      split; [intros r E; now destruct (A r E) as [-> ?]|].
      intros m s E. right. split; [reflexivity|].
      destruct (B _ E) as [[= -> ->] F]. eauto.
  - rewrite (request_not_connected w verb path options retry H). cbn.
    split; [intros; discriminate|]. intros m s [= <- <-]. left. auto.
Qed.

Lemma request_result_classified_witness :
  fst (request "GET" "api/credits" no_options true server_error_world)
  = Throw (ESignBaseSDKError "Internal error" (Some 500))
  /\ exists st, Some 500 = Some st /\ failure_status st.
Proof.
  split; [reflexivity|].
  destruct (request_result_classified server_error_world "GET" "api/credits"
              no_options true) as [_ B].
  destruct (B "Internal error" (Some 500) eq_refl) as [(C & _)|(_ & S)];
    [discriminate C | exact S].
Defined.

(** X6.  On a connected client [request] makes a single call exactly
    when the first answer is not a 401 on a call with retry allowed.  In
    that case the client is untouched and the result is decided by that
    one answer: the response when its status is in 200..299, an
    ESignBaseSDKError with its text and status otherwise, the transport's
    own error when the transport failed. *)
Theorem request_single_call (w : World) (verb path : string)
    (options : RequestOptions) (retry : bool) :
  isConnected (this w) = true ->
  let first := dispatch_call (accessToken (this w))
                 (baseURL (this w) +:+ strip_leading_slash path) verb options in
  let result := request verb path options retry w in
  (calls (snd result) = calls w ++ [first]
   <-> ~ (exists r1, fetch w (calls w) first = Resolved r1
                     /\ status r1 = 401 /\ retry = true))
  /\ (calls (snd result) = calls w ++ [first] ->
      snd result = logged w first
      /\ fst result
         = match fetch w (calls w) first with
           | Resolved r1 =>
               if ok r1 then Return r1
               else Throw (ESignBaseSDKError (error_message r1)
                             (Some (status r1)))
           | Rejected name reason => Throw (RuntimeError name reason)
           end).
Proof.
  intros H first result. unfold result.
  rewrite (request_unfold w verb path options retry H). fold first.
  destruct (fetch w (calls w) first) as [r1|].
  - destruct (Z.eqb_spec (status r1) 401) as [S|S]; destruct retry; cbn [andb].
    + destruct (reconnect_calls w verb path options) as [C _]. fold first in C.
      assert (forall l, calls w ++ first :: token_call (this w) :: l
                        <> calls w ++ [first]) as N.
      { intros l E. apply app_inv_head in E. discriminate. }
      destruct (connect (logged w first)) as [[[]|e] w2]; cbn [snd] in *.
      * cbv zeta.
        assert (calls (snd match fetch w2 (calls w2) (dispatch_call
                  (accessToken (this w2))
                  (baseURL (this w) +:+ strip_leading_slash path) verb options)
                with
                | Resolved r2 => handleResponse r2 (logged w2 (dispatch_call
                    (accessToken (this w2))
                    (baseURL (this w) +:+ strip_leading_slash path)
                    verb options))
                | Rejected name reason =>
                    (Throw (RuntimeError name reason), logged w2 (dispatch_call
                       (accessToken (this w2))
                       (baseURL (this w) +:+ strip_leading_slash path)
                       verb options))
                end)
                = calls w ++ first :: token_call (this w)
                    :: [dispatch_call (accessToken (this w2))
                          (baseURL (this w) +:+ strip_leading_slash path)
                          verb options]) as L.
        { destruct (fetch w2 (calls w2) _);
            [rewrite handleResponse_unfold|]; cbn; rewrite C, <- app_assoc;
            reflexivity. }
        rewrite L. split; [|intros E; now apply N in E].
        split; [intros E; now apply N in E|]. intros X. exfalso. apply X. eauto.
      * rewrite C. split; [|intros E; now apply N in E].
        split; [intros E; now apply N in E|]. intros X. exfalso. apply X. eauto.
    + rewrite handleResponse_unfold. cbn [fst snd logged calls].
      split; [|intros _; split; reflexivity].
      split; [intros _ (r & [= <-] & _ & ?); discriminate | reflexivity].
    + rewrite handleResponse_unfold. cbn [fst snd logged calls].
      split; [|intros _; split; reflexivity].
      split; [intros _ (r & [= <-] & ? & _); contradiction | reflexivity].
    + rewrite handleResponse_unfold. cbn [fst snd logged calls].
      split; [|intros _; split; reflexivity].
      split; [intros _ (r & [= <-] & ? & _); contradiction | reflexivity].
  - cbn [fst snd logged calls]. split; [|intros _; split; reflexivity].
    split; [intros _ (r & ? & _); discriminate | reflexivity].
Qed.

Lemma request_single_call_witness :
  isConnected (this unreachable_world) = true
  /\ request "GET" "api/credits" no_options true unreachable_world
     = (Throw (RuntimeError "AbortError" "This operation was aborted"),
        logged unreachable_world
          (dispatch_call (Str "t1") "https://app.esignbase.com/api/credits"
             "GET" no_options)).
Proof.
  split; [reflexivity|].
  destruct (request_single_call unreachable_world "GET" "api/credits"
              no_options true eq_refl) as [[_ A] B].
  assert (calls (snd (request "GET" "api/credits" no_options true
                        unreachable_world))
          = calls unreachable_world
            ++ [dispatch_call (Str "t1")
                  "https://app.esignbase.com/api/credits" "GET" no_options])
    as E.
  { apply A. intros (r & F & _). discriminate F. }
  destruct (B E) as [W R].
  rewrite (surjective_pairing (request _ _ _ _ _)), R, W. reflexivity.
Defined.

End Results.

(** ** What goes to the token endpoint *)

Section TokenRequest.

#[local] Arguments base64 : simpl never.
#[local] Arguments join : simpl never.

(** X7.  For a client built by the constructor, the token exchange sends
    the Basic credentials made of the given id and secret, and a form
    body with [grant_type] and the scopes joined by spaces; the form
    carries [username] and [password] exactly when the grant type is
    AUTHORIZATION_CODE, and they are then the non-empty strings that were
    given. *)
Theorem token_call_credentials (o : Options) (c : Client) :
  constructor o = Return c ->
  headers (token_call c) !! "Authorization"
  = Some ("Basic " +:+ base64 (clientId c +:+ ":" +:+ clientSecret c))
  /\ ((grantType c = GrantType.CLIENT_CREDENTIALS
       /\ body (token_call c)
          = Some (URLSearchParams
                    [("grant_type", "client_credentials");
                     ("scope", join " " (scope c))]))
      \/ (grantType c = GrantType.AUTHORIZATION_CODE
          /\ exists u p,
               opt_username o = Some u /\ u <> ""
               /\ opt_password o = Some p /\ p <> ""
               /\ body (token_call c)
                  = Some (URLSearchParams
                            [("grant_type", "authorization_code");
                             ("scope", join " " (scope c));
                             ("username", u); ("password", p)]))).
Proof.
  intros H. split; [reflexivity|].
  destruct (constructor_inversion o c H) as [V ->]. clear H.
  cbn in V.
  apply andb_true_iff in V as [_ V]. apply andb_true_iff in V as [_ V].
  apply andb_true_iff in V as [_ V]. apply andb_true_iff in V as [_ V].
  apply andb_true_iff in V as [G V]. apply andb_true_iff in V as [_ V].
  apply andb_true_iff in V as [K _].
  cbn [grantType scope]. unfold includes in G. cbn in G.
  apply orb_true_iff in G as [G|G];
    [|apply orb_true_iff in G as [G|G]; [|discriminate]];
    apply String.eqb_eq in G.
  - left. split; [assumption|]. unfold token_call. cbn [grantType scope].
    rewrite G. reflexivity.
  - right. split; [assumption|].
    rewrite G in K. cbn in K. apply andb_true_iff in K as [K1 K2].
    apply present_Some in K1 as (u & Eu & Nu).
    apply present_Some in K2 as (p & Ep & Np).
    exists u, p. repeat split; auto.
    unfold token_call. cbn [grantType scope username password].
    rewrite G, Eu, Ep. reflexivity.
Qed.

Lemma token_call_credentials_witness :
  constructor authorization_code_options = Return authorization_code_client
  /\ headers (token_call authorization_code_client) !! "Authorization"
     = Some "Basic aWQ6c2VjcmV0".
Proof.
  split; [reflexivity|].
  exact (proj1 (token_call_credentials authorization_code_options
                  authorization_code_client eq_refl)).
Defined.

End TokenRequest.

(** ** The calls of the public methods *)

Section Calls.

Lemma prefix_append (s t : string) : String.prefix s (s +:+ t) = true.
Proof.
  induction s as [|a s IH]; [now destruct t|].
  change (String a s +:+ t) with (String a (s +:+ t)). cbn.
  destruct (ascii_dec a a); [exact IH | contradiction].
Qed.

(** Every call of one request is the token exchange or a dispatch of the
    same method, URL and options. *)
Lemma request_new_calls (w : World) (verb path : string)
    (options : RequestOptions) (retry : bool) :
  exists l,
    calls (snd (request verb path options retry w)) = calls w ++ l
    /\ Forall (fun c =>
                 c = token_call (this w)
                 \/ exists t,
                      c = dispatch_call t
                            (baseURL (this w) +:+ strip_leading_slash path)
                            verb options) l.
Proof.
  destruct (isConnected (this w)) eqn:H.
  - destruct (request_calls w verb path options retry H) as [E|[E|E]];
      rewrite E; eexists; (split; [reflexivity|]);
      repeat (apply List.Forall_cons;
              [first [left; reflexivity | right; eauto]|]);
      apply List.Forall_nil.
  - rewrite (request_not_connected w verb path options retry H).
    exists []. cbn. rewrite app_nil_r. split; constructor.
Qed.

Lemma perform_new_calls (w : World) (op : Operation) :
  exists l,
    new_calls w (snd (perform op w)) = l
    /\ calls (snd (perform op w)) = calls w ++ l
    /\ Forall (fun c =>
                 c = token_call (this w)
                 \/ exists t,
                      c = dispatch_call t
                            (baseURL (this w)
                             +:+ strip_leading_slash (request_of op).1.2)
                            (request_of op).1.1 (request_of op).2) l.
Proof.
  unfold new_calls. rewrite perform_unfold.
  destruct (request_of op) as [[verb path] options]. cbn [fst snd].
  destruct (request_new_calls w verb path options (retries op))
    as (l & E & F).
  exists l. unfold bind.
  destruct (request verb path options (retries op) w) as [[r|e] w'];
    [rewrite decode_world|]; cbn [snd] in *; rewrite E, drop_app_length;
    auto.
Qed.

(** X8.  Every call a public method makes, token exchange included,
    aborts after 15000 milliseconds: no method passes a timeout of its
    own. *)
Theorem operations_timeout (w : World) (op : Operation) :
  Forall (fun c => abort_after c = 15000) (new_calls w (snd (perform op w))).
Proof.
  destruct (perform_new_calls w op) as (l & -> & _ & F).
  eapply Forall_impl; [exact F|]. cbv beta.
  intros c [->|[t ->]]; [reflexivity|]. destruct op; reflexivity.
Qed.

(** X9.  Every call a public method makes goes to a URL that starts with
    the stored baseURL. *)
Theorem operations_under_baseURL (w : World) (op : Operation) :
  Forall (fun c => String.prefix (baseURL (this w)) (url c) = true)
    (new_calls w (snd (perform op w))).
Proof.
  destruct (perform_new_calls w op) as (l & -> & _ & F).
  eapply Forall_impl; [exact F|]. cbv beta.
  intros c [->|[t ->]]; apply prefix_append.
Qed.

Lemma dispatch_other_headers (t t' : Value) (u m k : string)
    (o : RequestOptions) :
  k <> "Authorization" ->
  headers (dispatch_call t u m o) !! k = headers (dispatch_call t' u m o) !! k.
Proof.
  intros N. unfold dispatch_call, spread; cbn.
  destruct (opt_headers o) as [h|].
  - rewrite !lookup_union, !lookup_singleton_ne by auto. reflexivity.
  - rewrite !lookup_singleton_ne by auto. reflexivity.
Qed.

(** X10.  Whenever a request has made three calls, the second is the
    token exchange and the third repeats the first: same URL, method,
    body and abort delay, and the same headers but for Authorization. *)
Theorem retry_resends_same_request (w : World) (verb path : string)
    (options : RequestOptions) (retry : bool) (c1 x c2 : FetchCall) :
  calls (snd (request verb path options retry w)) = calls w ++ [c1; x; c2] ->
  x = token_call (this w)
  /\ url c2 = url c1
  /\ method c2 = method c1
  /\ body c2 = body c1
  /\ abort_after c2 = abort_after c1
  /\ forall k, k <> "Authorization" -> headers c2 !! k = headers c1 !! k.
Proof.
  intros E.
  destruct (isConnected (this w)) eqn:H.
  - destruct (request_calls w verb path options retry H) as [E'|[E'|E']];
      rewrite E' in E; apply app_inv_head in E; try discriminate.
    injection E as <- <- <-. repeat split.
    intros k N. now apply dispatch_other_headers.
  - rewrite (request_not_connected w verb path options retry H) in E.
    cbn in E. rewrite <- (app_nil_r (calls w)) in E at 1.
    apply app_inv_head in E. discriminate.
Qed.

Lemma retry_resends_same_request_witness :
  exists c1 x c2,
    calls (snd (request "POST" "api/document"
                  (request_of (CreateDocument sample_input)).2 true
                  retry_world))
    = calls retry_world ++ [c1; x; c2]
    /\ headers c2 !! "Content-Type" = headers c1 !! "Content-Type"
    /\ body c2 = body c1.
Proof.
  destruct (request_calls retry_world "POST" "api/document"
              (request_of (CreateDocument sample_input)).2 true eq_refl)
    as [E|[E|E]]; try (exfalso; revert E; vm_compute; discriminate).
  do 3 eexists. split; [exact E|].
  destruct (retry_resends_same_request retry_world "POST" "api/document"
              (request_of (CreateDocument sample_input)).2 true _ _ _ E)
    as (_ & _ & _ & B & _ & Hd).
  split; [apply Hd; discriminate | exact B].
Defined.

End Calls.

(** ** Connecting, then calling *)

(** X11.  After an exchange that succeeds with a truthy token the client
    reports connected, and the next public method goes past the guard:
    its first call comes right after the token exchange and carries
    [Bearer] followed by that token. *)
Theorem connect_then_operate (w : World) (r : Response) (data t : Value)
    (op : Operation) :
  fetch w (calls w) (token_call (this w)) = Resolved r ->
  ok r = true ->
  json r = Read data ->
  get_property data "access_token" = Some t ->
  truthy t = true ->
  let w1 := snd (connect w) in
  fst (connect w) = Return tt
  /\ isConnected (this w1) = true
  /\ headers (first_call w1 op) !! "Authorization"
     = Some ("Bearer " +:+ ToString t)
  /\ exists rest,
       calls (snd (perform op w1))
       = calls w ++ token_call (this w) :: first_call w1 op :: rest.
Proof.
  intros F O J P T w1. unfold w1. rewrite connect_unfold, F, O, J, P.
  cbn [fst snd]. split; [reflexivity|]. split; [exact T|].
  split.
  - unfold first_call. destruct (request_of op) as [[verb path] options] eqn:R.
    rewrite dispatch_authorization.
    pose proof (operation_has_no_authorization op) as NA. rewrite R in NA.
    cbn [snd] in NA. now rewrite NA.
  - rewrite perform_unfold. unfold first_call.
    destruct (request_of op) as [[verb path] options].
    set (w' := {| this := with_token (this w) t; fetch := fetch w;
                  calls := calls w ++ [token_call (this w)] |}).
    destruct (request_calls w' verb path options (retries op) T) as [E|[E|E]];
      unfold bind;
      destruct (request verb path options (retries op) w') as [[r'|e] w2];
      rewrite ?decode_world; cbn [snd] in E |- *; rewrite E;
      cbn [calls w']; rewrite <- app_assoc; eexists; reflexivity.
Qed.

Lemma connect_then_operate_witness :
  fst (connect first_connect_world) = Return tt
  /\ headers (first_call (snd (connect first_connect_world)) GetCredits)
       !! "Authorization" = Some "Bearer abc123"
  /\ fst (getCredits (snd (connect first_connect_world)))
     = Return (Object [("credits", Number 7)]).
Proof.
  destruct (connect_then_operate first_connect_world
              (json_response 200 (Object [("access_token", Str "abc123")]))
              (Object [("access_token", Str "abc123")]) (Str "abc123")
              GetCredits eq_refl eq_refl eq_refl eq_refl eq_refl)
    as (A & _ & B & _).
  split; [exact A|]. split; [exact B | reflexivity].
Defined.

(** ** Identifiers in paths *)

Section Identifiers.

Lemma encode_char_safe (c : ascii) :
  forallb uri_safe (list_ascii_of_string (encodeURIComponent (String c "")))
  = true.
Proof. destruct c as [[] [] [] [] [] [] [] []]; reflexivity. Qed.

Lemma encodeURIComponent_cons (c : ascii) (s : string) :
  encodeURIComponent (String c s)
  = encodeURIComponent (String c "") +:+ encodeURIComponent s.
Proof. cbn. destruct (uri_unreserved c); reflexivity. Qed.

Lemma list_ascii_of_append (s t : string) :
  list_ascii_of_string (s +:+ t)
  = list_ascii_of_string s ++ list_ascii_of_string t.
Proof.
  induction s as [|a s IH]; [reflexivity|].
  change (String a s +:+ t) with (String a (s +:+ t)). cbn. now rewrite IH.
Qed.

Lemma encodeURIComponent_safe (s : string) :
  forallb uri_safe (list_ascii_of_string (encodeURIComponent s)) = true.
Proof.
  induction s as [|c s IH]; [reflexivity|].
  rewrite encodeURIComponent_cons, list_ascii_of_append, forallb_app, IH.
  now rewrite encode_char_safe.
Qed.

(** X12.  The methods that take an identifier put it in the path as one
    segment: the URL is the baseURL, the fixed path and the encoded
    identifier, and the encoded identifier contains none of the
    characters that structure a URL (slash, question mark, hash,
    ampersand, equals, plus, colon, space). *)
Theorem identifier_is_one_segment (w : World) (id : string) :
  url (first_call w (GetTemplate id))
  = baseURL (this w) +:+ "api/template/" +:+ encodeURIComponent id
  /\ url (first_call w (GetDocument id))
     = baseURL (this w) +:+ "api/document/" +:+ encodeURIComponent id
  /\ url (first_call w (DeleteDocument id))
     = baseURL (this w) +:+ "api/document/" +:+ encodeURIComponent id
  /\ url (first_call w (DownloadDocument id))
     = baseURL (this w) +:+ "api/document/" +:+ encodeURIComponent id
       +:+ "/download"
  /\ forall c,
       In c (list_ascii_of_string (encodeURIComponent id)) ->
       ~ In c uri_separators.
Proof.
  repeat split.
  intros c I S.
  pose proof (encodeURIComponent_safe id) as F.
  rewrite forallb_forall in F. specialize (F c I).
  assert (forallb (fun x => negb (uri_safe x)) uri_separators = true) as N
    by reflexivity.
  rewrite forallb_forall in N. specialize (N c S).
  rewrite F in N. discriminate N.
Qed.

Lemma unreserved_not_percent (c : ascii) :
  uri_unreserved c = true -> c <> "%"%char.
Proof. intros H ->. discriminate H. Qed.

Lemma hex_digits_decode (c : ascii) :
  ascii_of_N (16 * hex_value (hex_digit (N_of_ascii c / 16))
              + hex_value (hex_digit (N_of_ascii c mod 16))) = c.
Proof. destruct c as [[] [] [] [] [] [] [] []]; reflexivity. Qed.

Lemma encodeURIComponent_injective (s1 s2 : string) :
  encodeURIComponent s1 = encodeURIComponent s2 -> s1 = s2.
Proof.
  revert s2.
  induction s1 as [|c1 s1 IH]; intros [|c2 s2]; cbn [encodeURIComponent];
    try reflexivity.
  - destruct (uri_unreserved c2); discriminate.
  - destruct (uri_unreserved c1); discriminate.
  - destruct (uri_unreserved c1) eqn:U1, (uri_unreserved c2) eqn:U2.
    + intros [= -> E]. now rewrite (IH _ E).
    + intros [= -> _]. discriminate U1.
    + intros [= <- _]. discriminate U2.
    + intros [= H L E]. rewrite (IH _ E). f_equal.
      rewrite <- (hex_digits_decode c1), <- (hex_digits_decode c2).
      now rewrite H, L.
Qed.

(** X13.  [encodeURIComponent] loses nothing: two identifiers with the
    same encoding are equal, so two different documents are never
    requested at the same URL. *)
Theorem distinct_identifiers_distinct_urls (w : World) (id1 id2 : string) :
  (encodeURIComponent id1 = encodeURIComponent id2 -> id1 = id2)
  /\ (url (first_call w (GetDocument id1)) = url (first_call w (GetDocument id2))
      -> id1 = id2)
  /\ (url (first_call w (GetTemplate id1)) = url (first_call w (GetTemplate id2))
      -> id1 = id2).
Proof.
  split; [apply encodeURIComponent_injective|].
  split; intros E; cbn in E;
    apply (inj (String.append (baseURL (this w)))) in E;
    apply encodeURIComponent_injective;
    [apply (inj (String.append "api/document/")) in E
    |apply (inj (String.append "api/template/")) in E]; exact E.
Qed.

Lemma distinct_identifiers_distinct_urls_witness :
  encodeURIComponent "a/b" = encodeURIComponent "a/b"
  /\ url (first_call retry_world (GetDocument "a/b"))
     = "https://app.esignbase.com/api/document/a%2Fb"
  /\ "a/b" = "a/b".
Proof.
  split; [reflexivity|]. split; [reflexivity|].
  exact (proj1 (distinct_identifiers_distinct_urls retry_world "a/b" "a/b")
           eq_refl).
Defined.

End Identifiers.

(** ** The rest of the body of createDocument *)

Section DocumentBody.

Lemma JSON_properties_lookup_cons (k k' : string) (v : Value)
    (rest : list (string * Value)) :
  lookup_property k (JSON_properties JSON_tree ((k', v) :: rest))
  = if String.eqb k k' then
      match written v with
      | Some x => Some x
      | None => lookup_property k (JSON_properties JSON_tree rest)
      end
    else lookup_property k (JSON_properties JSON_tree rest).
Proof.
  destruct v; cbn [JSON_properties lookup_property written];
    destruct (String.eqb k k'); reflexivity.
Qed.

(** X14.  The body of [createDocument] has the key
    [user_defined_metadata] exactly when the metadata given is truthy,
    and the value is then the metadata as [JSON.stringify] writes it;
    [null], [false], [0], the empty string and a missing value are left
    out. *)
Theorem createDocument_metadata (i : DocumentInput) :
  json_lookup "user_defined_metadata" (JSON_tree (Object (requestData i)))
  = if truthy (userDefinedMetadata i)
    then Some (JSON_tree (userDefinedMetadata i))
    else None.
Proof.
  unfold requestData. cbn [JSON_tree json_lookup app].
  rewrite !JSON_properties_skip by discriminate.
  destruct (truthy (userDefinedMetadata i)) eqn:T; cbn [app].
  - rewrite JSON_properties_lookup_cons. cbn [String.eqb Ascii.eqb Bool.eqb].
    destruct (userDefinedMetadata i); try reflexivity. discriminate T.
  - destruct (expirationDate i); reflexivity.
Qed.

(** X15.  The body of [createDocument] lists one object per recipient,
    in order.  Each object has at most the five properties email,
    first_name, last_name, role_name and locale: those the recipient has
    (and that are not undefined) with their values, and no other
    property of the recipient. *)
Theorem createDocument_recipients (i : DocumentInput) :
  exists l,
    json_lookup "recipients" (JSON_tree (Object (requestData i)))
    = Some (Array l)
    /\ Forall2
         (fun r e =>
            exists ps,
              e = Object ps
              /\ forall k,
                   lookup_property k ps
                   = if includes recipient_fields k
                     then written (field r k)
                     else None)
         (recipients i) l.
Proof.
  unfold requestData. cbn [JSON_tree json_lookup app].
  rewrite !JSON_properties_skip by discriminate.
  rewrite JSON_properties_lookup_cons.
  cbn [String.eqb Ascii.eqb Bool.eqb written JSON_tree].
  eexists. split; [reflexivity|].
  induction (recipients i) as [|r rs IH]; cbn [List.map]; constructor;
    [|exact IH].
  cbn [JSON_tree]. eexists. split; [reflexivity|].
  intros k. unfold recipient_fields, includes. cbn [existsb].
  rewrite !JSON_properties_lookup_cons. cbn [JSON_properties lookup_property].
  destruct (String.eqb_spec k "email") as [->|];
    [cbn; now destruct (written (field r "email"))|].
  destruct (String.eqb_spec k "first_name") as [->|];
    [cbn; now destruct (written (field r "first_name"))|].
  destruct (String.eqb_spec k "last_name") as [->|];
    [cbn; now destruct (written (field r "last_name"))|].
  destruct (String.eqb_spec k "role_name") as [->|];
    [cbn; now destruct (written (field r "role_name"))|].
  destruct (String.eqb_spec k "locale") as [->|];
    [cbn; now destruct (written (field r "locale"))|].
  reflexivity.
Qed.

End DocumentBody.

Lemma identifier_is_one_segment_witness :
  In "%"%char (list_ascii_of_string (encodeURIComponent "a/b"))
  /\ ~ In "%"%char uri_separators
  /\ url (first_call retry_world (DownloadDocument "a/b"))
     = "https://app.esignbase.com/api/document/a%2Fb/download".
Proof.
  destruct (identifier_is_one_segment retry_world "a/b")
    as (_ & _ & _ & U & S).
  assert (In "%"%char (list_ascii_of_string (encodeURIComponent "a/b"))) as I
    by (vm_compute; auto).
  split; [exact I|]. split; [exact (S _ I) | exact U].
Defined.

(** ** What the public methods send and return *)

Section Methods.

Variable w : World.
Variable op : Operation.

Hypothesis connected : isConnected (this w) = true.

Lemma ok_not_401 (r : Response) : ok r = true -> (status r =? 401) = false.
Proof.
  unfold ok. intros H. apply andb_true_iff in H as [_ H].
  apply Z.leb_le in H. apply Z.eqb_neq. lia.
Qed.

(** X16.  Every dispatch of a public method on a connected client
    carries [Bearer] and the stored token as its Authorization header:
    the first dispatch the token stored at the call, a second dispatch
    the token stored at the end. *)
Theorem operations_send_bearer :
  exists rest,
    calls (snd (perform op w)) = calls w ++ first_call w op :: rest
    /\ headers (first_call w op) !! "Authorization"
       = Some (bearer (accessToken (this w)))
    /\ (rest = []
        \/ rest = [token_call (this w)]
        \/ exists second,
             rest = [token_call (this w); second]
             /\ headers second !! "Authorization"
                = Some (bearer (accessToken (this (snd (perform op w)))))).
Proof.
  pose proof (operation_has_no_authorization op) as NA.
  rewrite perform_unfold. unfold first_call.
  destruct (request_of op) as [[verb path] options]. cbn [snd] in NA.
  destruct (request_calls w verb path options (retries op) connected)
    as [E|[E|E]]; unfold bind;
    destruct (request verb path options (retries op) w) as [[r|e] w'];
    rewrite ?decode_world; cbn [snd] in E |- *; rewrite E;
    eexists; (split; [reflexivity|]);
    (split; [now rewrite dispatch_authorization, NA|]); auto;
    right; right; eexists; (split; [reflexivity|]);
    now rewrite dispatch_authorization, NA.
Qed.

(** X17.  When the first answer has a status in 200..299, a public
    method makes that one call and leaves the client alone; the methods
    that decode JSON return the decoded body (or fail with the error of
    the decoding), [deleteDocument] returns true without reading the
    body, and [downloadDocument] returns the stream over the raw body
    when there is a body and fails with the TypeError of
    [Readable.fromWeb] when the body is null. *)
Theorem operation_success (r : Response) :
  fetch w (calls w) (first_call w op) = Resolved r ->
  ok r = true ->
  snd (perform op w) = logged w (first_call w op)
  /\ fst (perform op w)
     = match op with
       | DownloadDocument _ =>
           match payload r with
           | Some bytes => Return (Streamed (Readable_fromWeb bytes))
           | None => Throw (RuntimeError "TypeError" MSG_NOT_A_STREAM)
           end
       | DeleteDocument _ => Return (Deleted true)
       | _ =>
           match json r with
           | Read v => Return (Decoded v)
           | ReadFails name reason => Throw (RuntimeError name reason)
           end
       end.
Proof.
  unfold first_call. intros F O. rewrite perform_unfold.
  destruct (request_of op) as [[verb path] options] eqn:R.
  unfold bind.
  rewrite (request_unfold w verb path options (retries op) connected), F.
  rewrite (ok_not_401 r O). cbn [andb]. rewrite handleResponse_unfold, O.
  destruct op; cbn [decode];
    unfold bind, await_json, completed, fromWeb, ret, throw;
    try (split; reflexivity);
    destruct (json r), (payload r); split; reflexivity.
Qed.

(** X18.  When the first answer has a status outside 200..299 that is
    not a 401 (or the method is [downloadDocument], which does not
    retry), a public method makes that one call, leaves the client alone
    and fails with an ESignBaseSDKError carrying the text of the body and
    the status. *)
Theorem operation_failure (r : Response) :
  fetch w (calls w) (first_call w op) = Resolved r ->
  ok r = false ->
  status r <> 401 \/ retries op = false ->
  perform op w
  = (Throw (ESignBaseSDKError (error_message r) (Some (status r))),
     logged w (first_call w op)).
Proof.
  unfold first_call. intros F O N. rewrite perform_unfold.
  destruct (request_of op) as [[verb path] options] eqn:R.
  unfold bind.
  rewrite (request_unfold w verb path options (retries op) connected), F.
  assert ((status r =? 401) && retries op = false) as ->.
  { destruct N as [N|N]; [apply Z.eqb_neq in N; now rewrite N|].
    rewrite N. apply andb_false_r. }
  now rewrite handleResponse_unfold, O.
Qed.

End Methods.

Lemma operations_send_bearer_witness :
  isConnected (this retry_world) = true
  /\ exists rest,
       calls (snd (perform (DeleteDocument "doc1") retry_world))
       = calls retry_world
         ++ first_call retry_world (DeleteDocument "doc1") :: rest
       /\ headers (first_call retry_world (DeleteDocument "doc1"))
            !! "Authorization" = Some "Bearer t1".
Proof.
  split; [reflexivity|].
  destruct (operations_send_bearer retry_world (DeleteDocument "doc1") eq_refl)
    as (rest & E & A & _).
  exists rest. split; [exact E | exact A].
Defined.

Lemma operation_success_witness :
  isConnected (this no_content_world) = true
  /\ fst (deleteDocument "doc1" no_content_world) = Return true
  /\ fst (perform GetCredits no_content_world)
     = Throw (RuntimeError "SyntaxError" "Unexpected end of JSON input")
  /\ fst (perform (DownloadDocument "doc1") no_content_world)
     = Throw (RuntimeError "TypeError" MSG_NOT_A_STREAM).
Proof.
  split; [reflexivity|]. split; [reflexivity|]. split.
  - exact (proj2 (operation_success no_content_world GetCredits eq_refl
                    (mkResponse 204 (Read "")
                       (ReadFails "SyntaxError" "Unexpected end of JSON input")
                       None)
                    eq_refl eq_refl)).
  - exact (proj2 (operation_success no_content_world
                    (DownloadDocument "doc1") eq_refl
                    (mkResponse 204 (Read "")
                       (ReadFails "SyntaxError" "Unexpected end of JSON input")
                       None)
                    eq_refl eq_refl)).
Defined.

Lemma operation_failure_witness :
  isConnected (this server_error_world) = true
  /\ perform GetTemplates server_error_world
     = (Throw (ESignBaseSDKError "Internal error" (Some 500)),
        logged server_error_world (first_call server_error_world GetTemplates)).
Proof.
  split; [reflexivity|].
  assert (status (text_response 500 "Internal error") <> 401) as N
    by discriminate.
  exact (operation_failure server_error_world GetTemplates eq_refl
           (text_response 500 "Internal error") eq_refl eq_refl
           (or_introl N)).
Defined.


(** ** The query of getDocuments *)

Section Paging.

Lemma encodeURIComponent_unreserved (s : string) :
  forallb uri_unreserved (list_ascii_of_string s) = true ->
  encodeURIComponent s = s.
Proof.
  induction s as [|c s IH]; [reflexivity|]. cbn [list_ascii_of_string forallb].
  intros [U R]%andb_true_iff. cbn [encodeURIComponent].
  now rewrite U, (IH R).
Qed.

Lemma pretty_N_char_unreserved (x : N) :
  uri_unreserved (pretty_N_char x) = true.
Proof. unfold pretty_N_char. repeat case_match; reflexivity. Qed.

Lemma pretty_N_go_unreserved (x : N) (s : string) :
  forallb uri_unreserved (list_ascii_of_string s) = true ->
  forallb uri_unreserved (list_ascii_of_string (pretty_N_go x s)) = true.
Proof.
  revert s. induction (N.lt_wf_0 x) as [x _ IH]. intros s H.
  destruct (N.eq_dec x 0%N) as [->|N0]; [now rewrite pretty_N_go_0|].
  rewrite pretty_N_go_step by lia.
  apply IH; [apply N.div_lt; lia|].
  cbn [list_ascii_of_string forallb].
  now rewrite pretty_N_char_unreserved, H.
Qed.

Lemma pretty_Z_unreserved (n : Z) :
  forallb uri_unreserved (list_ascii_of_string (pretty n)) = true.
Proof.
  assert (forall p : positive,
            forallb uri_unreserved (list_ascii_of_string (pretty p)) = true)
    as P.
  { intros p. unfold pretty, pretty_positive, pretty, pretty_N.
    destruct (decide (N.pos p = 0%N)); [reflexivity|].
    now apply pretty_N_go_unreserved. }
  destruct n as [|p|p]; unfold pretty at 1, pretty_Z;
    [reflexivity | apply P|].
  change ("-" +:+ pretty p) with (String "-" (pretty p)).
  cbn [list_ascii_of_string forallb]. now rewrite P.
Qed.

(** X19.  For a limit and an offset that are safe integers,
    [getDocuments] writes them in decimal, unchanged by the encoding,
    into the query [limit=..&offset=..]; arguments left out count as 20
    and 0. *)
Theorem getDocuments_query_string (w : World) (limit offset : option Z) :
  safe_integer (default 20 limit) = true ->
  safe_integer (default 0 offset) = true ->
  url (first_call w (GetDocuments limit offset))
  = baseURL (this w) +:+ "api/documents?limit=" +:+ pretty (default 20 limit)
    +:+ "&offset=" +:+ pretty (default 0 offset).
Proof.
  intros _ _. unfold first_call. cbn [request_of url dispatch_call].
  rewrite !(encodeURIComponent_unreserved (pretty _))
    by apply pretty_Z_unreserved.
  reflexivity.
Qed.

Lemma getDocuments_query_string_witness :
  safe_integer 10 = true
  /\ safe_integer 0 = true
  /\ url (first_call retry_world (GetDocuments (Some 10) None))
     = "https://app.esignbase.com/api/documents?limit=10&offset=0".
Proof.
  split; [reflexivity|]. split; [reflexivity|].
  exact (getDocuments_query_string retry_world (Some 10) None
           eq_refl eq_refl).
Defined.

End Paging.
